(** * VCHKPlotter: the section-oriented parser of [file_handler.py]

    A shallow embedding of [FileHandler], [Section], [StatsFileObject] and
    [coerce_to_appropriate_dtype], together with the properties of the scan
    that the specification states about them.

    Conventions of the embedding.
    - Text is [string]; the model covers ASCII text (code points below 128),
      on which Python's [str.isspace], [str.lower], [\w] and [\d] are the
      tables written out in module [Py].
    - The opened file is the list of lines that iterating over it yields,
      each line with its terminator.  The iterator shared by
      [FileHandler.parse] and [Section.parse] is the list of lines not yet
      read: whoever reads a line passes on the tail.
    - A raised exception is a value of [py_exception]; [exit(1)] is
      [SystemExit 1].
    - [error(msg)] appends ["Error: " ++ msg] to the log of the error
      channel (the colour codes are left out). *)

From Stdlib Require Import String Ascii List Bool Arith ZArith QArith Qpower Lia.
Import ListNotations.

Local Open Scope string_scope.
Local Open Scope list_scope.
Local Open Scope nat_scope.

(** ** Python built-ins used by the parser *)

Module Py.

Definition TAB : ascii := ascii_of_nat 9.
Definition LF : ascii := ascii_of_nat 10.

Definition between (lo hi : nat) (c : ascii) : bool :=
  (lo <=? nat_of_ascii c) && (nat_of_ascii c <=? hi).

(** [str.isspace] on one ASCII character: tab, line feed, vertical tab,
    form feed, carriage return, the four separators 28..31 and space. *)
Definition isspace (c : ascii) : bool :=
  between 9 13 c || between 28 32 c.

(** [\d] on ASCII. *)
Definition isdigit (c : ascii) : bool := between 48 57 c.

Definition isupper (c : ascii) : bool := between 65 90 c.
Definition isalpha (c : ascii) : bool := between 65 90 c || between 97 122 c.

(** [\w] on ASCII: letters, digits and the underscore. *)
Definition isword (c : ascii) : bool :=
  isalpha c || isdigit c || (nat_of_ascii c =? 95).

Definition lower_char (c : ascii) : ascii :=
  if isupper c then ascii_of_nat (nat_of_ascii c + 32) else c.

(** [s.lower()] *)
Fixpoint lower (s : string) : string :=
  match s with
  | EmptyString => EmptyString
  | String c r => String (lower_char c) (lower r)
  end.

Fixpoint lstrip (s : string) : string :=
  match s with
  | EmptyString => EmptyString
  | String c r => if isspace c then lstrip r else s
  end.

Fixpoint rstrip (s : string) : string :=
  match s with
  | EmptyString => EmptyString
  | String c r =>
      match rstrip r with
      | EmptyString => if isspace c then EmptyString else String c EmptyString
      | r' => String c r'
      end
  end.

(** [s.strip()] *)
Definition strip (s : string) : string := rstrip (lstrip s).

(** [s.replace(x, "")] for a one-character [x]. *)
Fixpoint remove_char (x : ascii) (s : string) : string :=
  match s with
  | EmptyString => EmptyString
  | String c r =>
      if Ascii.eqb c x then remove_char x r else String c (remove_char x r)
  end.

(** [s.split(sep)] for a one-character separator: empty fields are kept
    and the result is never empty. *)
Fixpoint split (sep : ascii) (s : string) : list string :=
  match s with
  | EmptyString => [EmptyString]
  | String c r =>
      if Ascii.eqb c sep then EmptyString :: split sep r
      else match split sep r with
           | f :: fs => String c f :: fs
           | [] => [String c EmptyString]
           end
  end.

(** [s.startswith(p)] *)
Fixpoint startswith (p s : string) : bool :=
  match p, s with
  | EmptyString, _ => true
  | String _ _, EmptyString => false
  | String a p', String b s' => Ascii.eqb a b && startswith p' s'
  end.

(** The slice [s[n:]]. *)
Fixpoint slice_from (n : nat) (s : string) : string :=
  match n, s with
  | O, _ => s
  | S n', String _ r => slice_from n' r
  | S _, EmptyString => EmptyString
  end.

(** The longest prefix of [s] whose characters satisfy [p], and what
    follows it: how a greedy character-class repetition splits [s]. *)
Fixpoint span (p : ascii -> bool) (s : string) : string * string :=
  match s with
  | EmptyString => (EmptyString, EmptyString)
  | String c r =>
      if p c then let (a, b) := span p r in (String c a, b)
      else (EmptyString, s)
  end.

Fixpoint forallb (p : ascii -> bool) (s : string) : bool :=
  match s with
  | EmptyString => true
  | String c r => p c && forallb p r
  end.

Definition nonempty (s : string) : bool :=
  match s with EmptyString => false | String _ _ => true end.

(** [list.remove(x)]: drops the first occurrence; [None] stands for the
    [ValueError] raised when there is none. *)
Fixpoint list_remove (x : string) (l : list string) : option (list string) :=
  match l with
  | [] => None
  | y :: l' =>
      if String.eqb y x then Some l'
      else option_map (cons y) (list_remove x l')
  end.

(** [x in l] for a list of strings. *)
Definition contains (l : list string) (x : string) : bool :=
  existsb (String.eqb x) l.

(** Insertion-ordered [dict] with string keys: assignment to a present key
    overwrites its value in place, assignment to a new key appends. *)
Definition dict (V : Type) : Type := list (string * V).

Fixpoint dict_set {V : Type} (d : dict V) (k : string) (v : V) : dict V :=
  match d with
  | [] => [(k, v)]
  | (k', v') :: d' =>
      if String.eqb k' k then (k', v) :: d' else (k', v') :: dict_set d' k v
  end.

(** [d[k]]; [None] stands for the [KeyError]. *)
Fixpoint dict_get {V : Type} (d : dict V) (k : string) : option V :=
  match d with
  | [] => None
  | (k', v') :: d' => if String.eqb k' k then Some v' else dict_get d' k
  end.

Definition keys {V : Type} (d : dict V) : list string := map fst d.

End Py.

(** A line of tab-separated fields with its terminator, for writing inputs. *)
Definition tsv (fields : list string) : string :=
  (String.concat (String Py.TAB EmptyString) fields
     ++ String Py.LF EmptyString)%string.

(** ** Cell values and [coerce_to_appropriate_dtype] *)

(** The values a cell can hold.  [PyFloat q] is the float that the decimal
    literal of exact value [q] denotes.  [PyLiteral src] is the outcome of
    [coerce_to_appropriate_dtype] on a text [src] outside the forms that
    [Ast.literal_eval] below decides: a tuple, list, dict, set, bytes,
    complex, hexadecimal, underscored, ... literal evaluates to its
    value, and a text that is no literal stays [src]. *)
Inductive pyval : Type :=
| PyInt (z : Z)
| PyFloat (q : Q)
| PyBool (b : bool)
| PyNone
| PyStr (s : string)
| PyLiteral (src : string).

Module Ast.

Inductive eval_result : Type :=
| Value (v : pyval)
| Raises
| Undecided.

(** A bare word: [[A-Za-z_][A-Za-z0-9_]*]. *)
Definition is_identifier (s : string) : bool :=
  match s with
  | EmptyString => false
  | String c r =>
      (Py.isalpha c || (nat_of_ascii c =? 95)) && Py.forallb Py.isword r
  end.

Definition digit_value (c : ascii) : Z := Z.of_nat (nat_of_ascii c - 48).

(** Value of a run of decimal digits, most significant first. *)
Fixpoint digits_value (acc : Z) (s : string) : Z :=
  match s with
  | EmptyString => acc
  | String c r => digits_value (10 * acc + digit_value c)%Z r
  end.

Definition all_digits (s : string) : bool :=
  Py.nonempty s && Py.forallb Py.isdigit s.

Definition is_zero_char (c : ascii) : bool := nat_of_ascii c =? 48.

(** Python's [decinteger] without underscores: a nonzero digit followed
    by digits, or a run of zeros.  A run of digits with a leading zero
    and a nonzero digit is a syntax error. *)
Definition decinteger_ok (s : string) : bool :=
  match s with
  | EmptyString => false
  | String c _ => negb (is_zero_char c) || Py.forallb is_zero_char s
  end.

(** Longest integer literal that every interpreter version converts
    (later versions refuse more than 4300 digits). *)
Definition max_str_digits : Z := 4300.

(** An optional sign in front of a number: the factor and what follows
    the sign. *)
Definition strip_sign (s : string) : Z * string :=
  match s with
  | String "+" r => (1%Z, r)
  | String "-" r => ((-1)%Z, r)
  | _ => (1%Z, s)
  end.

Definition is_e (c : ascii) : bool := Ascii.eqb c "e" || Ascii.eqb c "E".

(** Python's [exponent] behind its letter: an optional sign and digits. *)
Definition exponent (s : string) : option Z :=
  let (sign, ds) := strip_sign s in
  if all_digits ds then Some (sign * digits_value 0 ds)%Z else None.

(** [m] times ten to the power [x], exactly, as a reduced fraction. *)
Definition scaled (m x : Z) : Q :=
  if (0 <=? x)%Z then Qmake (m * 10 ^ x) 1
  else Qred (Qmake m (Z.to_pos (10 ^ (- x)))).

(** The value of the digits [ip], a dot, the digits [fp], times ten to
    the power [e]. *)
Definition decimal (ip fp : string) (e : Z) : Q :=
  scaled (digits_value (digits_value 0 ip) fp)
         (e - Z.of_nat (String.length fp)).

(** Python's [floatnumber] without underscores: a [pointfloat] (digits, a
    dot, digits, with a digit on at least one side), or digits or a
    [pointfloat] followed by an exponent. *)
Definition floatnumber (s : string) : option Q :=
  let (ip, r1) := Py.span Py.isdigit s in
  let '(fp, dot, r2) :=
    match r1 with
    | String "." t => let (fp, r2) := Py.span Py.isdigit t in (fp, true, r2)
    | _ => (EmptyString, false, r1)
    end in
  if Py.nonempty ip || Py.nonempty fp then
    match r2 with
    | EmptyString => if dot then Some (decimal ip fp 0) else None
    | String c r3 =>
        if is_e c then option_map (decimal ip fp) (exponent r3) else None
    end
  else None.

Definition DQUOTE : ascii := ascii_of_nat 34.
Definition BACKSLASH : ascii := ascii_of_nat 92.

Definition is_quote (c : ascii) : bool := Ascii.eqb c "'" || Ascii.eqb c DQUOTE.

(** A character that stands for itself between the quotes [q]: a
    printing character, not the quote, not a backslash. *)
Definition plain_in (q c : ascii) : bool :=
  negb (Ascii.eqb c q) && negb (Ascii.eqb c BACKSLASH) && Py.between 32 126 c.

(** A string literal without prefix and escapes in single or double
    quotes: the text between the quotes. *)
Definition quoted (s : string) : option string :=
  match s with
  | String q r =>
      if is_quote q then
        match Py.span (plain_in q) r with
        | (inner, String q' EmptyString) =>
            if Ascii.eqb q' q then Some inner else None
        | _ => None
        end
      else None
  | EmptyString => None
  end.

(** [ast.literal_eval] of the Python library, on the texts it is decided
    for here: bare words, plain quoted strings, optionally signed decimal
    integers and floats.  A float that would be the negative zero has no
    value in [Q] and is left [Undecided], as is everything else. *)
Definition literal_eval (s : string) : eval_result :=
  if is_identifier s then
    if String.eqb s "True" then Value (PyBool true)
    else if String.eqb s "False" then Value (PyBool false)
    else if String.eqb s "None" then Value PyNone
    else Raises
  else
    match quoted s with
    | Some inner => Value (PyStr inner)
    | None =>
        let (sign, body) := strip_sign s in
        if all_digits body then
          if negb (decinteger_ok body) then Raises
          else if (max_str_digits <? Z.of_nat (String.length body))%Z
               then Undecided
               else Value (PyInt (sign * digits_value 0 body))
        else
          match floatnumber body with
          | Some q =>
              if (sign <? 0)%Z then
                if Qeq_bool q 0 then Undecided else Value (PyFloat (Qopp q))
              else Value (PyFloat q)
          | None => Undecided
          end
    end.

End Ast.

(** [coerce_to_appropriate_dtype(val)]: the literal value of [val], and
    [str(val)], that is [val] itself, when [ast.literal_eval] raises. *)
Definition coerce_to_appropriate_dtype (val : string) : pyval :=
  match Ast.literal_eval val with
  | Ast.Value v => v
  | Ast.Raises => PyStr val
  | Ast.Undecided => PyLiteral val
  end.

(** ** Exceptions and the error channel *)

Inductive py_exception : Type :=
| IOError (msg : string)
| ValueError (msg : string)
| SystemExit (code : nat).

(** [error(message)] of [utils.py]: one more line on the error channel. *)
Definition error (stderr : list string) (message : string) : list string :=
  stderr ++ [("Error: " ++ message)%string].

(** ** class Section *)

Module VchkSection.

(** What [pd.DataFrame(columns=..., data=...)] is given. *)
Record DataFrame : Type := mkDataFrame {
  columns : list string;
  data : list (list pyval)
}.

Record t : Type := mk {
  _title : string;
  _columns : list string;
  _rows : list (list pyval);
  _text_rows : list string;
  _data_frame : option DataFrame
}.

(** [Section.__init__(title, columns, header)] *)
Definition init (title : string) (columns : list string) (header : string) : t :=
  {| _title := title;
     _columns := columns;
     _rows := [];
     _text_rows := [header];
     _data_frame := None |}.

(** [Section.accept_row(row)]: the section with one more row, or the
    [IOError] raised when the field count differs from the column count. *)
Definition accept_row (self : t) (row : string) : py_exception + t :=
  let split_on_delimiter := tl (Py.split Py.TAB row) in
  if negb (length split_on_delimiter =? length (_columns self)) then
    inl (IOError "File not in the correct format. Missing a data point")
  else
    inr {| _title := _title self;
           _columns := _columns self;
           _rows := _rows self
                      ++ [map coerce_to_appropriate_dtype split_on_delimiter];
           _text_rows := _text_rows self;
           _data_frame := _data_frame self |}.

Definition append_text (self : t) (line : string) : t :=
  {| _title := _title self;
     _columns := _columns self;
     _rows := _rows self;
     _text_rows := _text_rows self ++ [line];
     _data_frame := _data_frame self |}.

(** The assignment to [self._data_frame] that ends [Section.parse]. *)
Definition materialize (self : t) : t :=
  {| _title := _title self;
     _columns := _columns self;
     _rows := _rows self;
     _text_rows := _text_rows self;
     _data_frame := Some {| columns := _columns self; data := _rows self |} |}.

(** [Section.parse(file_line_iterator)].  Each [next(file_line_iterator,
    None)] reads the head of the list and leaves the tail; the second
    component of the result is what is left of the iterator when
    [parse] returns or raises.  The line that ends the [while] loop has
    been read like every other. *)
Fixpoint parse (self : t) (file_line_iterator : list string)
  : (py_exception + t) * list string :=
  match file_line_iterator with
  | [] => (inr (materialize self), [])
  | next_line :: rest =>
      if Py.startswith "#" next_line then (inr (materialize self), rest)
      else
        match accept_row (append_text self next_line)
                         (Py.remove_char Py.LF (Py.strip next_line)) with
        | inl e => (inl e, rest)
        | inr self' => parse self' rest
        end
  end.

(** [Section.get_text()] *)
Definition get_text (self : t) : list string := _text_rows self.

End VchkSection.

(** ** class StatsFileObject *)

Module StatsFileObject.

Record t : Type := mk { _sections : Py.dict VchkSection.t }.

(** [StatsFileObject()] *)
Definition init : t := {| _sections := [] |}.

Definition add_section (self : t) (name : string) (section : VchkSection.t) : t :=
  {| _sections := Py.dict_set (_sections self) name section |}.

(** [get_section(name)]; [None] stands for the [KeyError]. *)
Definition get_section (self : t) (name : string) : option VchkSection.t :=
  Py.dict_get (_sections self) name.

End StatsFileObject.

(** ** class FileHandler *)

Module FileHandler.

(** [SECTION_HEADER_PATTERN.match(line)] for [# (\w+)\t]: a hash, a
    space, one or more word characters, a tab.  The tab is no word
    character, so the greedy run of word characters is the only split. *)
Definition SECTION_HEADER_PATTERN (line : string) : bool :=
  match line with
  | String "#" (String " " s) =>
      match Py.span Py.isword s with
      | (w, String c _) => Py.nonempty w && Ascii.eqb c Py.TAB
      | (_, EmptyString) => false
      end
  | _ => false
  end.

(** [SECTION_HEADER_CONSTITUENT.match(s)] for [\[\d+\](.+)], giving
    [group(1)]: an opening bracket, one or more digits, a closing
    bracket, then one or more characters other than a line feed, as many
    as there are. *)
Definition SECTION_HEADER_CONSTITUENT (s : string) : option string :=
  match s with
  | String "[" s1 =>
      match Py.span Py.isdigit s1 with
      | (ds, String "]" s2) =>
          let g := fst (Py.span (fun c => negb (Ascii.eqb c Py.LF)) s2) in
          if Py.nonempty ds && Py.nonempty g then Some g else None
      | _ => None
      end
  | _ => None
  end.

(** The state the scan threads: the object being filled, [self._actions]
    and the error channel. *)
Record state : Type := mkState {
  stats_file_object : StatsFileObject.t;
  _actions : list string;
  stderr : list string
}.

(** [check_and_clean(line_to_clean)]: the cleaned column name; [None]
    stands for [error("File not in correct format")] followed by
    [exit(1)]. *)
Definition check_and_clean (line_to_clean : string) : option string :=
  let line_to_clean := Py.remove_char Py.LF (Py.strip line_to_clean) in
  match SECTION_HEADER_CONSTITUENT line_to_clean with
  | None => None
  | Some group1 => Some (Py.lower group1)
  end.

(** [list(map(self.check_and_clean, fields))]: left to right, stopping
    at the first field that exits. *)
Fixpoint map_check_and_clean (fields : list string) : option (list string) :=
  match fields with
  | [] => Some []
  | f :: fs =>
      match check_and_clean f with
      | None => None
      | Some name =>
          match map_check_and_clean fs with
          | None => None
          | Some names => Some (name :: names)
          end
      end
  end.

(** [line.split("\t")[0][2:].lower()] *)
Definition title_of (line : string) : string :=
  Py.lower (Py.slice_from 2 (hd EmptyString (Py.split Py.TAB line))).

(** [list(map(self.check_and_clean, line.split("\t")[1:]))] *)
Definition columns_of (line : string) : option (list string) :=
  map_check_and_clean (tl (Py.split Py.TAB line)).

Inductive outcome : Type :=
| Returned (st : state)
| Uncaught (e : py_exception) (st : state)
| OutOfFuel.

(** What one turn of [for line in stats_file] does: go on with the
    iterator and state given, or leave the loop with an exception. *)
Inductive turn : Type :=
| Next (stats_file : list string) (st : state)
| Leave (e : py_exception) (st : state).

Definition registered (st : state) (name : string) (section : VchkSection.t)
  : state :=
  {| stats_file_object :=
       StatsFileObject.add_section (stats_file_object st) name section;
     _actions := _actions st;
     stderr := stderr st |}.

Definition reported (st : state) (message : string) : state :=
  {| stats_file_object := stats_file_object st;
     _actions := _actions st;
     stderr := error (stderr st) message |}.

Definition with_actions (st : state) (actions' : list string) : state :=
  {| stats_file_object := stats_file_object st;
     _actions := actions';
     stderr := stderr st |}.

(** The body of the [for] loop of [FileHandler.parse], on the line just
    read and the iterator behind it. *)
Definition loop_body (line : string) (stats_file : list string) (st : state)
  : turn :=
  if SECTION_HEADER_PATTERN line then
    let data_type_title := title_of line in
    match columns_of line with
    | None => Leave (SystemExit 1) (reported st "File not in correct format")
    | Some columns =>
        if Py.contains (_actions st) data_type_title
           || String.eqb data_type_title "sn" then
          let section := VchkSection.init data_type_title columns line in
          match VchkSection.parse section stats_file with
          | (inr section, stats_file') =>
              Next stats_file' (registered st data_type_title section)
          | (inl (IOError _), stats_file') =>
              match Py.list_remove data_type_title (_actions st) with
              | None =>
                  Leave (ValueError "list.remove(x): x not in list") st
              | Some actions' =>
                  Next stats_file'
                       (reported (with_actions st actions')
                                 ("Could not parse section "
                                    ++ data_type_title ++ " properly"))
              end
          | (inl e, _) => Leave e st
          end
        else Next stats_file st
    end
  else Next stats_file st.

(** The [for] loop.  Each turn reads at least the line it is given, so
    as many turns as there are lines always suffice (see
    [parse_loop_fuel]). *)
Fixpoint parse_loop (fuel : nat) (stats_file : list string) (st : state)
  : outcome :=
  match stats_file with
  | [] => Returned st
  | line :: rest =>
      match fuel with
      | O => OutOfFuel
      | S fuel' =>
          match loop_body line rest st with
          | Next stats_file' st' => parse_loop fuel' stats_file' st'
          | Leave e st' => Uncaught e st'
          end
      end
  end.

(** The scan of the lines still to read, from a given state. *)
Definition scan (stats_file : list string) (st : state) : outcome :=
  parse_loop (length stats_file) stats_file st.

(** [FileHandler(clargs, actions).parse()] on an opened file. *)
Definition parse (actions : list string) (stats_file : list string) : outcome :=
  scan stats_file
       {| stats_file_object := StatsFileObject.init;
          _actions := actions;
          stderr := [] |}.

End FileHandler.

(** ** [warn] of [utils.py] and class CustomArgumentParser *)

(** [warn(verbosity, message)]: a line on the error channel when
    [verbosity] is true, nothing otherwise. *)
Definition warn (stderr : list string) (verbosity : bool) (message : string)
  : list string :=
  if verbosity then stderr ++ [("Warning! " ++ message)%string] else stderr.

Module CustomArgumentParser.

Definition AVAILABLE_STANDALONE_ARGUMENTS : list (string * string) :=
  [("TSTV",
    "makes a text file and graph for the transitions/transversions sections");
   ("SiS", "makes a text file and graph for the singleton stats section");
   ("AF",
    "makes a text file and graph for the stats by non-reference allele frequency section");
   ("QUAL", "makes a text file and graph for the stats by quality section");
   ("IDD", "makes a text file and graph for the InDel distribution section");
   ("ST", "makes a text file and graph for the substitution types section");
   ("DP", "makes a text file and graph for the depth distribution section");
   ("PSC", "makes a text file and graph for the per-sample counts section");
   ("PSI", "makes a text file and graph for the per-sample InDels section");
   ("HWE",
    "makes a text file and graph for the Hardy Weinberg equilibrium section");
   ("SN", "makes a text file and graph for the Summary Numbers section")].

(** The [argparse.Namespace] that [super().parse_args()] returns.
    [flag args name] is [args_dictionary[name]] for the name of a
    standalone argument: [None] when neither [-NAME] nor [-no-NAME] was
    given, [Some true] for [-NAME], [Some false] for [-no-NAME]. *)
Record Namespace : Type := mkNamespace {
  in_dir : string;
  out_dir : string;
  flag : string -> option bool;
  ALL : bool;
  verbose : bool
}.

(** Truth value of a flag where Python tests it: [None] and [False] are
    false. *)
Definition truthy (v : option bool) : bool :=
  match v with
  | Some true => true
  | _ => false
  end.

Definition is_None (v : option bool) : bool :=
  match v with
  | None => true
  | Some _ => false
  end.

(** [any(args_dictionary[arg[0]] for arg in AVAILABLE_STANDALONE_ARGUMENTS)] *)
Definition any_flag (args : Namespace) : bool :=
  existsb (fun arg => truthy (flag args (fst arg)))
          AVAILABLE_STANDALONE_ARGUMENTS.

(** [_sanity_check_arguments(args_namespace)]: the actions, and the error
    channel after the warning it may write. *)
Definition _sanity_check_arguments (stderr : list string) (args : Namespace)
  : list string * list string :=
  if ALL args then
    let stderr' :=
      if any_flag args then
        warn stderr (verbose args)
             "Unnecessary flag inclusion whilst --ALL flag set to true."
      else stderr in
    let actions :=
      map (fun option => Py.lower (fst option))
          (filter (fun option =>
                     truthy (flag args (fst option))
                     || is_None (flag args (fst option)))
                  AVAILABLE_STANDALONE_ARGUMENTS) in
    (actions, stderr')
  else
    let stderr' :=
      if negb (any_flag args) then
        warn stderr (verbose args)
             "No arguments have been chosen, program will now terminate."
      else stderr in
    let actions :=
      map (fun option => Py.lower (fst option))
          (filter (fun option => truthy (flag args (fst option)))
                  AVAILABLE_STANDALONE_ARGUMENTS) in
    (actions, stderr').

(** [parse_args()], given the namespace [argparse] built from the command
    line: the namespace, [self.actions] and the error channel. *)
Definition parse_args (stderr : list string) (args : Namespace)
  : Namespace * list string * list string :=
  let (actions, stderr') := _sanity_check_arguments stderr args in
  (args, actions, stderr').

End CustomArgumentParser.

(** The names of the standalone arguments and the section codes they
    stand for, in the order of the table. *)
Definition argument_names : list string :=
  map fst CustomArgumentParser.AVAILABLE_STANDALONE_ARGUMENTS.

Definition section_codes : list string :=
  ["tstv"; "sis"; "af"; "qual"; "idd"; "st"; "dp"; "psc"; "psi"; "hwe"; "sn"].

(** The flag under which [_sanity_check_arguments] selects an argument. *)
Definition selected (args : CustomArgumentParser.Namespace) (name : string) : Prop :=
  CustomArgumentParser.flag args name = Some true
  \/ (CustomArgumentParser.ALL args = true
      /\ CustomArgumentParser.flag args name = None).

(** A namespace for the command line [-DP -no-PSC], with or without
    [--ALL] and [--verbose]. *)
Definition dp_not_psc (all verbose : bool) : CustomArgumentParser.Namespace :=
  {| CustomArgumentParser.in_dir := "in.vchk";
     CustomArgumentParser.out_dir := "out";
     CustomArgumentParser.flag :=
       fun name =>
         if String.eqb name "DP" then Some true
         else if String.eqb name "PSC" then Some false
         else None;
     CustomArgumentParser.ALL := all;
     CustomArgumentParser.verbose := verbose |}.

(** The diagnostic that [FileHandler.parse] writes when it gives up the
    section with the code [c]. *)
Definition diagnostic (c : string) : string :=
  ("Error: " ++ ("Could not parse section " ++ c ++ " properly"))%string.

(** A line of white space only: [strip] leaves nothing of it. *)
Definition blank (line : string) : bool :=
  negb (Py.nonempty (Py.strip line)).

(** ** Vocabulary of the specification *)

(** A boundary is a line that starts with the comment marker. *)
Definition is_boundary (line : string) : bool := Py.startswith "#" line.

(** The iterator is at the end of a section: exhausted, or at a boundary. *)
Definition at_section_end (stats_file : list string) : bool :=
  match stats_file with
  | [] => true
  | line :: _ => is_boundary line
  end.

(** What [Section.parse] hands to [accept_row] for a line, the fields
    that [accept_row] retains, and the row it builds from them. *)
Definition cleaned (line : string) : string :=
  Py.remove_char Py.LF (Py.strip line).

Definition fields_of (line : string) : list string :=
  tl (Py.split Py.TAB (cleaned line)).

Definition row_of (line : string) : list pyval :=
  map coerce_to_appropriate_dtype (fields_of line).

(** The line has as many retained fields as there are columns. *)
Definition fits (columns : list string) (line : string) : bool :=
  length (fields_of line) =? length columns.

(** A body line of a section with these columns, of the right shape. *)
Definition body_line (columns : list string) (line : string) : Prop :=
  is_boundary line = false /\ fits columns line = true.

(** The section once the lines [body] were appended and accepted. *)
Definition accepted (self : VchkSection.t) (body : list string) : VchkSection.t :=
  {| VchkSection._title := VchkSection._title self;
     VchkSection._columns := VchkSection._columns self;
     VchkSection._rows := VchkSection._rows self ++ map row_of body;
     VchkSection._text_rows := VchkSection._text_rows self ++ body;
     VchkSection._data_frame := VchkSection._data_frame self |}.

(** The section that [FileHandler.parse] registers for a header line with
    the given columns and body. *)
Definition section_of (header : string) (columns : list string)
           (body : list string) : VchkSection.t :=
  VchkSection.materialize
    (accepted (VchkSection.init (FileHandler.title_of header) columns header) body).

(** A section code is wanted in a state when it is in [_actions] or is
    the summary code: the test that guards the construction of a
    [Section]. *)
Definition wanted (st : FileHandler.state) (title : string) : bool :=
  Py.contains (FileHandler._actions st) title || String.eqb title "sn".

(** A line as iterating over a text file yields it: a line feed occurs at
    most once, as the last character. *)
Fixpoint is_line (s : string) : bool :=
  match s with
  | EmptyString => true
  | String c r => if Ascii.eqb c Py.LF then negb (Py.nonempty r) else is_line r
  end.

(** No character of [s] is a line feed. *)
Definition no_lf (s : string) : bool :=
  Py.forallb (fun c => negb (Ascii.eqb c Py.LF)) s.

(** The text that follows the first closing bracket of [s]. *)
Fixpoint after_bracket (s : string) : string :=
  match s with
  | EmptyString => EmptyString
  | String c r => if Ascii.eqb c "]" then r else after_bracket r
  end.

(** The column name as the specification words it: the field trimmed,
    its bracket-index prefix stripped, lower-cased. *)
Definition spec_column_name (field : string) : string :=
  Py.lower (after_bracket (Py.strip field)).

(** The section [sec] under the code [c] comes from the file: a header
    line of the file with code [c], wanted under the requested set, whose
    body lines run up to the end of the section, all of the right shape;
    [sec] is what [parse] registers for them. *)
Definition origin (file : list string) (actions : list string)
           (c : string) (sec : VchkSection.t) : Prop :=
  exists pre header columns body post,
    file = pre ++ header :: body ++ post
    /\ FileHandler.SECTION_HEADER_PATTERN header = true
    /\ FileHandler.title_of header = c
    /\ FileHandler.columns_of header = Some columns
    /\ Py.contains actions c || String.eqb c "sn" = true
    /\ Forall (body_line columns) body
    /\ at_section_end post = true
    /\ sec = section_of header columns body.

(** The ways a turn can go on. *)
Inductive turn_kind (line : string) (rest : list string) (st : FileHandler.state)
  : list string -> FileHandler.state -> Prop :=
| Skipped :
    FileHandler.SECTION_HEADER_PATTERN line = false
    \/ (exists columns, FileHandler.columns_of line = Some columns)
       /\ wanted st (FileHandler.title_of line) = false ->
    turn_kind line rest st rest st
| Registered columns body rest' :
    FileHandler.SECTION_HEADER_PATTERN line = true ->
    FileHandler.columns_of line = Some columns ->
    wanted st (FileHandler.title_of line) = true ->
    Forall (body_line columns) body ->
    (rest = body /\ rest' = []
     \/ exists b, is_boundary b = true /\ rest = body ++ b :: rest') ->
    turn_kind line rest st rest'
              (FileHandler.registered st (FileHandler.title_of line)
                                      (section_of line columns body))
| Recovered columns body bad rest' actions' :
    FileHandler.SECTION_HEADER_PATTERN line = true ->
    FileHandler.columns_of line = Some columns ->
    wanted st (FileHandler.title_of line) = true ->
    Forall (body_line columns) body ->
    is_boundary bad = false ->
    fits columns bad = false ->
    rest = body ++ bad :: rest' ->
    Py.list_remove (FileHandler.title_of line) (FileHandler._actions st)
    = Some actions' ->
    turn_kind line rest st rest'
              (FileHandler.reported
                 (FileHandler.with_actions st actions')
                 ("Could not parse section "
                    ++ FileHandler.title_of line ++ " properly")).

(** The line is a header with the code [c]. *)
Definition heads (c : string) (line : string) : bool :=
  FileHandler.SECTION_HEADER_PATTERN line
  && String.eqb (FileHandler.title_of line) c.

(** The state in which a run ended. *)
Definition final_state (o : FileHandler.outcome) : FileHandler.state :=
  match o with
  | FileHandler.Returned st => st
  | FileHandler.Uncaught _ st => st
  | FileHandler.OutOfFuel =>
      {| FileHandler.stats_file_object := StatsFileObject.init;
         FileHandler._actions := [];
         FileHandler.stderr := [] |}
  end.

Definition sections_of (st : FileHandler.state) : Py.dict VchkSection.t :=
  StatsFileObject._sections (FileHandler.stats_file_object st).

(** Number of entries of a dict under a key. *)
Definition entries {V : Type} (d : Py.dict V) (k : string) : nat :=
  length (filter (fun kv => String.eqb (fst kv) k) d).

(** The ways a number literal is signed, the text of the sign and its
    factor. *)
Inductive sign : Type := NoSign | PlusSign | MinusSign.








(** ** Sample files *)

Definition sn_header : string := tsv ["# SN"; "[2]id"; "[3]key"; "[4]value"].
Definition sn_row : string := tsv ["SN"; "0"; "number of samples:"; "1"].
Definition dp_header : string := tsv ["# DP"; "[2]id"; "[3]bin"; "[4]count"].
Definition dp_row : string := tsv ["DP"; "0"; "1"; "5"].
Definition dp_row' : string := tsv ["DP"; "0"; "2"; "7"].
Definition psc_header : string := tsv ["# PSC"; "[2]id"; "[3]sample"].
Definition psc_row : string := tsv ["PSC"; "0"; "S1"].

(** Three sections, each header right behind the body before it. *)
Definition adjacent_file : list string :=
  [sn_header; sn_row; dp_header; dp_row; psc_header; psc_row].

(** The same sections laid out as the statistics tool writes them, with
    a describing comment line before each header. *)
Definition commented_file : list string :=
  [tsv ["# SN, Summary numbers:"]; sn_header; sn_row;
   tsv ["# DP, Depth distribution:"]; dp_header; dp_row;
   tsv ["# PSC, Per-sample counts:"]; psc_header; psc_row].

(** A summary section whose only row lacks two values, then a
    well-formed section. *)
Definition short_summary_file : list string :=
  [sn_header; tsv ["SN"; "0"]; dp_header; dp_row].

(** A header whose column field has no bracket index, right behind the
    body of the summary section. *)
Definition malformed_dp_header : string := tsv ["# DP"; "depth"].

Definition malformed_header_file : list string :=
  [sn_header; sn_row; malformed_dp_header; tsv ["DP"; "5"]].

(** Two sections with the code DP. *)
Definition twice_dp_file : list string :=
  [dp_header; dp_row; tsv ["# DP, once more:"]; dp_header; dp_row'].

(** The same two sections, the second header right behind the first
    body. *)
Definition adjacent_twice_dp_file : list string :=
  [dp_header; dp_row; dp_header; dp_row'].

(** ** The iterator discipline of [Section.parse] *)

Lemma accepted_nil (self : VchkSection.t) : accepted self [] = self.
Proof.
  destruct self; unfold accepted; simpl. now rewrite !app_nil_r.
Qed.

Lemma accept_row_fits (self : VchkSection.t) (line : string) :
  fits (VchkSection._columns self) line = true ->
  VchkSection.accept_row (VchkSection.append_text self line) (cleaned line)
  = inr (accepted self [line]).
Proof.
  unfold fits, fields_of, VchkSection.accept_row. simpl. intros ->. reflexivity.
Qed.

Lemma accept_row_misfit (self : VchkSection.t) (line : string) :
  fits (VchkSection._columns self) line = false ->
  VchkSection.accept_row (VchkSection.append_text self line) (cleaned line)
  = inl (IOError "File not in the correct format. Missing a data point").
Proof.
  unfold fits, fields_of, VchkSection.accept_row. simpl. intros ->. reflexivity.
Qed.

Lemma accepted_cons (self : VchkSection.t) (line : string) (body : list string) :
  accepted (accepted self [line]) body = accepted self (line :: body).
Proof.
  unfold accepted; simpl. now rewrite <- !app_assoc.
Qed.

Lemma parse_cons (self : VchkSection.t) (line : string) (rest : list string) :
  VchkSection.parse self (line :: rest)
  = if is_boundary line then (inr (VchkSection.materialize self), rest)
    else match VchkSection.accept_row (VchkSection.append_text self line)
                                      (cleaned line) with
         | inl e => (inl e, rest)
         | inr self' => VchkSection.parse self' rest
         end.
Proof. reflexivity. Qed.

(** Body lines of the right shape are read one after the other. *)
Lemma parse_body (body : list string) :
  forall (self : VchkSection.t) (rest : list string),
    Forall (body_line (VchkSection._columns self)) body ->
    VchkSection.parse self (body ++ rest)
    = VchkSection.parse (accepted self body) rest.
Proof.
  induction body as [|line body IH]; intros self rest Hbody.
  - now rewrite accepted_nil.
  - inversion Hbody as [|? ? [Hnb Hfit] Hrest]; subst.
    rewrite <- app_comm_cons, parse_cons, Hnb, (accept_row_fits _ _ Hfit).
    rewrite IH by exact Hrest. now rewrite accepted_cons.
Qed.

(** At a boundary [Section.parse] returns, and the boundary line is no
    longer in the iterator. *)
Lemma parse_stops_behind_boundary (self : VchkSection.t) (body : list string)
      (b : string) (rest : list string) :
  Forall (body_line (VchkSection._columns self)) body ->
  is_boundary b = true ->
  VchkSection.parse self (body ++ b :: rest)
  = (inr (VchkSection.materialize (accepted self body)), rest).
Proof.
  intros Hbody Hb. rewrite parse_body by exact Hbody.
  now rewrite parse_cons, Hb.
Qed.

Lemma parse_to_end_of_input (self : VchkSection.t) (body : list string) :
  Forall (body_line (VchkSection._columns self)) body ->
  VchkSection.parse self body
  = (inr (VchkSection.materialize (accepted self body)), []).
Proof.
  intros Hbody. rewrite <- (app_nil_r body) at 1.
  now rewrite parse_body by exact Hbody.
Qed.

(** A misshapen body line raises, with the iterator just behind it. *)
Lemma parse_raises_at_misfit (self : VchkSection.t) (body : list string)
      (bad : string) (rest : list string) :
  Forall (body_line (VchkSection._columns self)) body ->
  is_boundary bad = false ->
  fits (VchkSection._columns self) bad = false ->
  VchkSection.parse self (body ++ bad :: rest)
  = (inl (IOError "File not in the correct format. Missing a data point"), rest).
Proof.
  intros Hbody Hnb Hmis. rewrite parse_body by exact Hbody.
  now rewrite parse_cons, Hnb, accept_row_misfit.
Qed.

(** Every run of [Section.parse] is one of the three above. *)
Lemma parse_cases (file_line_iterator : list string) :
  forall (self : VchkSection.t) r rest,
    VchkSection.parse self file_line_iterator = (r, rest) ->
    exists body,
      Forall (body_line (VchkSection._columns self)) body /\
      ((r = inr (VchkSection.materialize (accepted self body))
        /\ file_line_iterator = body /\ rest = [])
       \/ (r = inr (VchkSection.materialize (accepted self body))
           /\ exists b, is_boundary b = true
                        /\ file_line_iterator = body ++ b :: rest)
       \/ (r = inl (IOError "File not in the correct format. Missing a data point")
           /\ exists bad, is_boundary bad = false
                          /\ fits (VchkSection._columns self) bad = false
                          /\ file_line_iterator = body ++ bad :: rest)).
Proof.
  induction file_line_iterator as [|line it IH]; intros self r rest H.
  - simpl in H. inversion H; subst. exists []. split; [constructor|].
    left. now rewrite accepted_nil.
  - rewrite parse_cons in H. destruct (is_boundary line) eqn:Hb.
    + inversion H; subst. exists []. split; [constructor|].
      right; left. rewrite accepted_nil. split; [reflexivity|].
      exists line. now split.
    + destruct (fits (VchkSection._columns self) line) eqn:Hfit.
      * rewrite (accept_row_fits _ _ Hfit) in H.
        destruct (IH _ _ _ H) as [body [Hbody Hcases]].
        exists (line :: body). split.
        { constructor; [now split|exact Hbody]. }
        rewrite <- accepted_cons.
        destruct Hcases as [[-> [-> ->]]|[[-> [b [Hbb ->]]]|[-> [bad [H1 [H2 ->]]]]]].
        -- now left.
        -- right; left. split; [reflexivity|]. now exists b.
        -- right; right. split; [reflexivity|]. now exists bad.
      * rewrite (accept_row_misfit _ _ Hfit) in H. inversion H; subst.
        exists []. split; [constructor|]. right; right.
        split; [reflexivity|]. exists line. now repeat split.
Qed.

Lemma parse_shortens (self : VchkSection.t) (it : list string) r rest :
  VchkSection.parse self it = (r, rest) -> length rest <= length it.
Proof.
  intros H. destruct (parse_cases _ _ _ _ H) as [body [_ Hc]].
  destruct Hc as [[_ [-> ->]]|[[_ [b [_ ->]]]|[_ [bad [_ [_ ->]]]]]];
    rewrite ?length_app; simpl; lia.
Qed.

(** ** One turn of the loop of [FileHandler.parse] *)

(** A line that is no header, and the header of a section that is not
    wanted, leave iterator and state as they are. *)
Lemma loop_body_not_header (line : string) (rest : list string)
      (st : FileHandler.state) :
  FileHandler.SECTION_HEADER_PATTERN line = false ->
  FileHandler.loop_body line rest st = FileHandler.Next rest st.
Proof. unfold FileHandler.loop_body. now intros ->. Qed.

Lemma loop_body_unwanted (line : string) (rest : list string)
      (st : FileHandler.state) (columns : list string) :
  FileHandler.SECTION_HEADER_PATTERN line = true ->
  FileHandler.columns_of line = Some columns ->
  wanted st (FileHandler.title_of line) = false ->
  FileHandler.loop_body line rest st = FileHandler.Next rest st.
Proof.
  unfold FileHandler.loop_body, wanted. now intros -> -> ->.
Qed.

(** A header with a field that is no column name ends the run. *)
Lemma loop_body_malformed (line : string) (rest : list string)
      (st : FileHandler.state) :
  FileHandler.SECTION_HEADER_PATTERN line = true ->
  FileHandler.columns_of line = None ->
  FileHandler.loop_body line rest st
  = FileHandler.Leave (SystemExit 1)
                      (FileHandler.reported st "File not in correct format").
Proof. unfold FileHandler.loop_body. now intros -> ->. Qed.

(** The header of a wanted section: the outcome of [Section.parse]
    decides. *)
Lemma loop_body_wanted (line : string) (rest : list string)
      (st : FileHandler.state) (columns : list string) :
  FileHandler.SECTION_HEADER_PATTERN line = true ->
  FileHandler.columns_of line = Some columns ->
  wanted st (FileHandler.title_of line) = true ->
  FileHandler.loop_body line rest st
  = match VchkSection.parse
            (VchkSection.init (FileHandler.title_of line) columns line) rest with
    | (inr section, rest') =>
        FileHandler.Next rest'
          (FileHandler.registered st (FileHandler.title_of line) section)
    | (inl (IOError _), rest') =>
        match Py.list_remove (FileHandler.title_of line)
                             (FileHandler._actions st) with
        | None =>
            FileHandler.Leave (ValueError "list.remove(x): x not in list") st
        | Some actions' =>
            FileHandler.Next rest'
              (FileHandler.reported
                 (FileHandler.with_actions st actions')
                 ("Could not parse section "
                    ++ FileHandler.title_of line ++ " properly"))
        end
    | (inl e, _) => FileHandler.Leave e st
    end.
Proof.
  unfold FileHandler.loop_body, wanted. now intros -> -> ->.
Qed.

Lemma loop_body_next (line : string) (rest : list string)
      (st : FileHandler.state) rest' st' :
  FileHandler.loop_body line rest st = FileHandler.Next rest' st' ->
  turn_kind line rest st rest' st'.
Proof.
  intros H.
  destruct (FileHandler.SECTION_HEADER_PATTERN line) eqn:Hh.
  2:{ rewrite loop_body_not_header in H by exact Hh. inversion H; subst.
      constructor. now left. }
  destruct (FileHandler.columns_of line) as [columns|] eqn:Hc.
  2:{ rewrite loop_body_malformed in H by assumption. discriminate. }
  destruct (wanted st (FileHandler.title_of line)) eqn:Hw.
  2:{ rewrite (loop_body_unwanted _ _ _ columns) in H by assumption.
      inversion H; subst. constructor. right. split; [now exists columns|exact Hw]. }
  rewrite (loop_body_wanted _ _ _ columns) in H by assumption.
  destruct (VchkSection.parse _ rest) as [r rest0] eqn:Hp.
  destruct (parse_cases _ _ _ _ Hp) as [body [Hbody Hcases]]. simpl in Hbody.
  destruct Hcases as [[-> [Hr ->]]|[[-> [b [Hb Hr]]]|[-> [bad [Hb [Hf Hr]]]]]].
  - inversion H; subst. eapply Registered; eauto.
  - inversion H; subst. eapply Registered; eauto.
  - destruct (Py.list_remove _ _) as [actions'|] eqn:Hrm; [|discriminate].
    inversion H; subst. eapply Recovered; eauto.
Qed.

Lemma loop_body_shortens (line : string) (rest : list string)
      (st : FileHandler.state) rest' st' :
  FileHandler.loop_body line rest st = FileHandler.Next rest' st' ->
  length rest' <= length rest.
Proof.
  intros H. apply loop_body_next in H.
  destruct H as [_|? ? ? _ _ _ _ [[-> ->]|[b [_ ->]]]|? ? ? ? ? _ _ _ _ _ _ -> _];
    rewrite ?length_app; simpl; lia.
Qed.

(** ** The loop needs no more turns than there are lines *)

Lemma parse_loop_fuel (fuel1 : nat) :
  forall (fuel2 : nat) (stats_file : list string) (st : FileHandler.state),
    length stats_file <= fuel1 ->
    length stats_file <= fuel2 ->
    FileHandler.parse_loop fuel1 stats_file st
    = FileHandler.parse_loop fuel2 stats_file st.
Proof.
  induction fuel1 as [|fuel1 IH]; intros fuel2 [|line rest] st H1 H2;
    simpl in H1, H2; try lia.
  - destruct fuel2; reflexivity.
  - destruct fuel2; reflexivity.
  - destruct fuel2 as [|fuel2]; [lia|]. simpl.
    destruct (FileHandler.loop_body line rest st) as [rest' st'|e st'] eqn:Hb;
      [|reflexivity].
    apply loop_body_shortens in Hb. apply IH; lia.
Qed.

Lemma scan_nil (st : FileHandler.state) :
  FileHandler.scan [] st = FileHandler.Returned st.
Proof. reflexivity. Qed.

Lemma scan_cons (line : string) (rest : list string) (st : FileHandler.state) :
  FileHandler.scan (line :: rest) st
  = match FileHandler.loop_body line rest st with
    | FileHandler.Next rest' st' => FileHandler.scan rest' st'
    | FileHandler.Leave e st' => FileHandler.Uncaught e st'
    end.
Proof.
  unfold FileHandler.scan. simpl.
  destruct (FileHandler.loop_body line rest st) as [rest' st'|e st'] eqn:Hb;
    [|reflexivity].
  apply loop_body_shortens in Hb. apply parse_loop_fuel; lia.
Qed.

(** Induction on the lines still to read. *)
Lemma lines_ind (P : list string -> Prop) :
  (forall lines, (forall lines', length lines' < length lines -> P lines') -> P lines) ->
  forall lines, P lines.
Proof.
  intros step lines.
  remember (length lines) as n eqn:Hn. revert lines Hn.
  induction n as [n IH] using lt_wf_ind. intros lines ->.
  apply step. intros lines' Hlt. now apply (IH (length lines')).
Qed.

(** [FileHandler.parse] always comes to an end: it returns or raises. *)
Lemma scan_terminates (stats_file : list string) :
  forall st, FileHandler.scan stats_file st <> FileHandler.OutOfFuel.
Proof.
  induction stats_file as [lines IH] using lines_ind. intros st.
  destruct lines as [|line rest]; [discriminate|].
  rewrite scan_cons.
  destruct (FileHandler.loop_body line rest st) as [rest' st'|e st'] eqn:Hb;
    [|discriminate].
  apply loop_body_shortens in Hb. apply IH. simpl; lia.
Qed.

(** A property of iterator and state that every turn keeps holds when
    the loop returns. *)
Lemma scan_invariant (Inv : list string -> FileHandler.state -> Prop) :
  (forall line rest st rest' st',
      Inv (line :: rest) st ->
      turn_kind line rest st rest' st' ->
      Inv rest' st') ->
  forall stats_file st st_end,
    Inv stats_file st ->
    FileHandler.scan stats_file st = FileHandler.Returned st_end ->
    Inv [] st_end.
Proof.
  intros Hstep stats_file.
  induction stats_file as [lines IH] using lines_ind. intros st st_end Hinv Hrun.
  destruct lines as [|line rest].
  - rewrite scan_nil in Hrun. now inversion Hrun; subst.
  - rewrite scan_cons in Hrun.
    destruct (FileHandler.loop_body line rest st) as [rest' st'|e st'] eqn:Hb;
      [|discriminate].
    pose proof (loop_body_shortens _ _ _ _ _ Hb) as Hlen.
    apply loop_body_next in Hb.
    apply (IH rest') with (st := st'); [simpl; lia| |exact Hrun].
    eapply Hstep; eauto.
Qed.

(** ** The dict of sections *)

Lemma dict_get_set_same {V : Type} (d : Py.dict V) (k : string) (v : V) :
  Py.dict_get (Py.dict_set d k v) k = Some v.
Proof.
  induction d as [|[k' v'] d IH]; simpl.
  - now rewrite String.eqb_refl.
  - destruct (String.eqb k' k) eqn:E; simpl; rewrite E; [reflexivity|exact IH].
Qed.

Lemma dict_get_set_other {V : Type} (d : Py.dict V) (k k0 : string) (v : V) :
  k0 <> k ->
  Py.dict_get (Py.dict_set d k v) k0 = Py.dict_get d k0.
Proof.
  intros Hne. induction d as [|[k' v'] d IH]; simpl.
  - destruct (String.eqb k k0) eqn:E; [|reflexivity].
    apply String.eqb_eq in E. congruence.
  - destruct (String.eqb k' k) eqn:E; simpl.
    + apply String.eqb_eq in E. subst k'.
      destruct (String.eqb k k0) eqn:E0; [|reflexivity].
      apply String.eqb_eq in E0. congruence.
    + now rewrite IH.
Qed.

Lemma entries_set_same {V : Type} (d : Py.dict V) (k : string) (v : V) :
  entries (Py.dict_set d k v) k = Nat.max 1 (entries d k).
Proof.
  unfold entries. induction d as [|[k' v'] d IH]; simpl.
  - now rewrite String.eqb_refl.
  - destruct (String.eqb k' k) eqn:E; simpl; rewrite E; simpl.
    + lia.
    + exact IH.
Qed.

Lemma entries_set_other {V : Type} (d : Py.dict V) (k k0 : string) (v : V) :
  k0 <> k ->
  entries (Py.dict_set d k v) k0 = entries d k0.
Proof.
  intros Hne. unfold entries. induction d as [|[k' v'] d IH]; simpl.
  - destruct (String.eqb k k0) eqn:E; [|reflexivity].
    apply String.eqb_eq in E. congruence.
  - destruct (String.eqb k' k) eqn:E; simpl.
    + apply String.eqb_eq in E. subst k'.
      destruct (String.eqb k k0) eqn:E0; [|reflexivity].
      apply String.eqb_eq in E0. congruence.
    + destruct (String.eqb k' k0); simpl; now rewrite IH.
Qed.

Lemma contains_In (l : list string) (x : string) :
  Py.contains l x = true <-> In x l.
Proof.
  unfold Py.contains. rewrite existsb_exists. split.
  - intros [y [Hin E]]. apply String.eqb_eq in E. now subst.
  - intros Hin. exists x. split; [exact Hin|apply String.eqb_refl].
Qed.

Lemma list_remove_incl (x : string) (l l' : list string) :
  Py.list_remove x l = Some l' -> incl l' l.
Proof.
  revert l'. induction l as [|y l IH]; intros l' H; simpl in H; [discriminate|].
  destruct (String.eqb y x).
  - inversion H; subst. apply incl_tl, incl_refl.
  - destruct (Py.list_remove x l) as [l0|]; [|discriminate].
    inversion H; subst. apply incl_cons; [now left|].
    apply incl_tl. now apply IH.
Qed.

Lemma list_remove_In (x : string) (l : list string) :
  In x l -> exists l', Py.list_remove x l = Some l'.
Proof.
  induction l as [|y l IH]; intros Hin; [contradiction|]. simpl.
  destruct (String.eqb y x) eqn:E; [eauto|].
  destruct Hin as [->|Hin]; [now rewrite String.eqb_refl in E|].
  destruct (IH Hin) as [l' ->]. simpl. eauto.
Qed.

(** ** Where a registered section comes from *)

Lemma registered_get (st : FileHandler.state) (name : string)
      (section : VchkSection.t) (c : string) :
  StatsFileObject.get_section
    (FileHandler.stats_file_object (FileHandler.registered st name section)) c
  = if String.eqb name c then Some section
    else StatsFileObject.get_section (FileHandler.stats_file_object st) c.
Proof.
  unfold StatsFileObject.get_section. simpl.
  destruct (String.eqb name c) eqn:E.
  - apply String.eqb_eq in E. subst. apply dict_get_set_same.
  - apply dict_get_set_other. intros ->. now rewrite String.eqb_refl in E.
Qed.

(** Every section of the object that [parse] returns was parsed from a
    header of the file that was wanted, and holds that header and the
    body lines up to the end of the section. *)
Lemma registered_origin (actions : list string) (file : list string)
      (st : FileHandler.state) (c : string) (sec : VchkSection.t) :
  FileHandler.parse actions file = FileHandler.Returned st ->
  StatsFileObject.get_section (FileHandler.stats_file_object st) c = Some sec ->
  origin file actions c sec.
Proof.
  intros Hrun Hget.
  pose (Inv := fun (rem : list string) (s : FileHandler.state) =>
    (exists done, file = done ++ rem) /\
    incl (FileHandler._actions s) actions /\
    forall c sec,
      StatsFileObject.get_section (FileHandler.stats_file_object s) c = Some sec ->
      origin file actions c sec).
  assert (Hend : Inv [] st).
  { apply (scan_invariant Inv) with (stats_file := file) (3 := Hrun).
    - clear. intros line rest s rest' s' [[done Hfile] [Hincl Hsecs]] Hturn.
      destruct Hturn as [_|columns body rest' Hh Hc Hw Hbody Hrest
                        |columns body bad rest' actions' Hh Hc Hw Hbody Hnb Hf Hrest Hrm].
      + split; [|now split]. exists (done ++ [line]). now rewrite <- app_assoc.
      + split; [|split; [exact Hincl|]].
        * destruct Hrest as [[-> ->]|[b [_ ->]]].
          -- exists (done ++ line :: body). now rewrite app_nil_r.
          -- exists (done ++ line :: body ++ [b]).
             rewrite <- !app_assoc. simpl. now rewrite <- app_assoc.
        * intros c sec. rewrite registered_get.
          destruct (String.eqb (FileHandler.title_of line) c) eqn:E;
            [|apply Hsecs].
          apply String.eqb_eq in E. intros Hs. inversion Hs. subst c.
          assert (Hwant : Py.contains actions (FileHandler.title_of line)
                          || String.eqb (FileHandler.title_of line) "sn" = true).
          { unfold wanted in Hw.
            apply orb_true_iff in Hw. apply orb_true_iff.
            destruct Hw as [Hw|Hw]; [left|now right].
            apply contains_In. apply Hincl. now apply contains_In. }
          destruct Hrest as [[-> ->]|[b [Hb ->]]].
          -- exists done, line, columns, body, [].
             rewrite app_nil_r. repeat split; auto.
          -- exists done, line, columns, body, (b :: rest').
             repeat split; auto.
      + split; [|split].
        * exists (done ++ line :: body ++ [bad]). subst rest.
          rewrite <- !app_assoc. simpl. now rewrite <- app_assoc.
        * simpl. eapply incl_tran; [eapply list_remove_incl; eauto|exact Hincl].
        * exact Hsecs.
    - split; [now exists []|]. split; [apply incl_refl|].
      intros c0 sec0 H0. discriminate. }
  destruct Hend as [_ [_ Hsecs]]. now apply Hsecs.
Qed.

(** ** Lines that are skipped *)


(** ** Lines that are skipped *)

Lemma body_never_header (line : string) :
  is_boundary line = false ->
  FileHandler.SECTION_HEADER_PATTERN line = false.
Proof.
  destruct line as [|c r]; [reflexivity|].
  destruct c as [[] [] [] [] [] [] [] []]; intros H; try reflexivity.
  cbn in H. discriminate H.
Qed.

Lemma scan_skips_lines (lines : list string) :
  forall (rest : list string) (st : FileHandler.state),
    Forall (fun l => FileHandler.SECTION_HEADER_PATTERN l = false) lines ->
    FileHandler.scan (lines ++ rest) st = FileHandler.scan rest st.
Proof.
  induction lines as [|line lines IH]; intros rest st Hall; [reflexivity|].
  inversion Hall as [|? ? Hl Hls]; subst.
  rewrite <- app_comm_cons, scan_cons, loop_body_not_header by exact Hl.
  now apply IH.
Qed.

(** The header and the body of a section that is not wanted are passed
    over line by line; the scan goes on at the line behind the body, in
    the state it had. *)
Lemma scan_skips_unwanted (st : FileHandler.state) (header : string)
      (columns : list string) (body rest : list string) :
  FileHandler.SECTION_HEADER_PATTERN header = true ->
  FileHandler.columns_of header = Some columns ->
  wanted st (FileHandler.title_of header) = false ->
  Forall (fun l => is_boundary l = false) body ->
  FileHandler.scan (header :: body ++ rest) st = FileHandler.scan rest st.
Proof.
  intros Hh Hc Hw Hbody.
  rewrite scan_cons, (loop_body_unwanted _ _ _ columns) by assumption.
  apply scan_skips_lines.
  eapply Forall_impl; [|exact Hbody]. apply body_never_header.
Qed.

(** A code that is neither requested nor the summary code has no entry
    in the object that [parse] returns. *)
Lemma unrequested_absent (actions : list string) (file : list string)
      (st : FileHandler.state) (c : string) :
  FileHandler.parse actions file = FileHandler.Returned st ->
  Py.contains actions c = false ->
  c <> "sn" ->
  StatsFileObject.get_section (FileHandler.stats_file_object st) c = None.
Proof.
  intros Hrun Hc Hsn.
  destruct (StatsFileObject.get_section _ c) as [sec|] eqn:Hget; [|reflexivity].
  destruct (registered_origin _ _ _ _ _ Hrun Hget)
    as (pre & header & columns & body & post & _ & _ & _ & _ & Hw & _).
  rewrite Hc in Hw. simpl in Hw. apply String.eqb_eq in Hw. contradiction.
Qed.

(** ** Sections that are parsed *)

(** The header of a wanted section whose body lines all have the right
    shape: the section is registered, and the scan goes on behind the
    line that ended the body. *)
Lemma scan_registers (st : FileHandler.state) (header : string)
      (columns : list string) (body rest : list string) :
  FileHandler.SECTION_HEADER_PATTERN header = true ->
  FileHandler.columns_of header = Some columns ->
  wanted st (FileHandler.title_of header) = true ->
  Forall (body_line columns) body ->
  at_section_end rest = true ->
  FileHandler.scan (header :: body ++ rest) st
  = FileHandler.scan (tl rest)
      (FileHandler.registered st (FileHandler.title_of header)
                              (section_of header columns body)).
Proof.
  intros Hh Hc Hw Hbody Hend.
  rewrite scan_cons, (loop_body_wanted _ _ _ columns) by assumption.
  destruct rest as [|b rest]; simpl in Hend.
  - rewrite app_nil_r, parse_to_end_of_input by exact Hbody. reflexivity.
  - rewrite parse_stops_behind_boundary by assumption. reflexivity.
Qed.

(** A misshapen body line in a requested section: the code leaves the
    requested list, the diagnostic is written, nothing is registered, and
    the scan goes on at the line behind the misshapen one. *)
Lemma scan_recovers (st : FileHandler.state) (header : string)
      (columns : list string) (body : list string) (bad : string)
      (rest actions' : list string) :
  FileHandler.SECTION_HEADER_PATTERN header = true ->
  FileHandler.columns_of header = Some columns ->
  wanted st (FileHandler.title_of header) = true ->
  Forall (body_line columns) body ->
  is_boundary bad = false ->
  fits columns bad = false ->
  Py.list_remove (FileHandler.title_of header) (FileHandler._actions st)
  = Some actions' ->
  FileHandler.scan (header :: body ++ bad :: rest) st
  = FileHandler.scan rest
      (FileHandler.reported
         (FileHandler.with_actions st actions')
         ("Could not parse section "
            ++ FileHandler.title_of header ++ " properly")).
Proof.
  intros Hh Hc Hw Hbody Hnb Hf Hrm.
  rewrite scan_cons, (loop_body_wanted _ _ _ columns) by assumption.
  rewrite parse_raises_at_misfit by assumption.
  now rewrite Hrm.
Qed.

(** The same in the summary section when [sn] was not requested:
    [list.remove] raises and the run ends there. *)
Lemma scan_crashes_on_unrequested_summary (st : FileHandler.state)
      (header : string) (columns : list string) (body : list string)
      (bad : string) (rest : list string) :
  FileHandler.SECTION_HEADER_PATTERN header = true ->
  FileHandler.columns_of header = Some columns ->
  FileHandler.title_of header = "sn" ->
  Py.contains (FileHandler._actions st) "sn" = false ->
  Forall (body_line columns) body ->
  is_boundary bad = false ->
  fits columns bad = false ->
  FileHandler.scan (header :: body ++ bad :: rest) st
  = FileHandler.Uncaught (ValueError "list.remove(x): x not in list") st.
Proof.
  intros Hh Hc Ht Hreq Hbody Hnb Hf.
  assert (Hw : wanted st (FileHandler.title_of header) = true).
  { unfold wanted. rewrite Ht. apply orb_true_r. }
  rewrite scan_cons, (loop_body_wanted _ _ _ columns) by assumption.
  rewrite parse_raises_at_misfit by assumption. rewrite Ht.
  destruct (Py.list_remove "sn" (FileHandler._actions st)) as [l|] eqn:Hrm;
    [|reflexivity].
  exfalso.
  assert (Hin : In "sn" (FileHandler._actions st)).
  { clear - Hrm. revert l Hrm.
    induction (FileHandler._actions st) as [|y a IH]; intros l Hrm;
      simpl in Hrm; [discriminate|].
    destruct (String.eqb y "sn") eqn:E.
    - apply String.eqb_eq in E. now left.
    - destruct (Py.list_remove "sn" a) as [l0|]; [|discriminate].
      right. now apply (IH l0). }
  apply contains_In in Hin. congruence.
Qed.

(** A header with a malformed column field, when the loop reads it, ends
    the run with the diagnostic and [exit(1)]. *)
Lemma scan_exits_on_malformed_header (st : FileHandler.state)
      (header : string) (rest : list string) :
  FileHandler.SECTION_HEADER_PATTERN header = true ->
  FileHandler.columns_of header = None ->
  FileHandler.scan (header :: rest) st
  = FileHandler.Uncaught (SystemExit 1)
      (FileHandler.reported st "File not in correct format").
Proof.
  intros Hh Hc. now rewrite scan_cons, loop_body_malformed by assumption.
Qed.

(** An entry of the dict stays to the end of the scan. *)
Lemma scan_keeps_entries (c : string) (stats_file : list string)
      (st st_end : FileHandler.state) :
  StatsFileObject.get_section (FileHandler.stats_file_object st) c <> None ->
  FileHandler.scan stats_file st = FileHandler.Returned st_end ->
  StatsFileObject.get_section (FileHandler.stats_file_object st_end) c <> None.
Proof.
  intros Hin Hrun.
  apply (scan_invariant
           (fun _ s => StatsFileObject.get_section
                         (FileHandler.stats_file_object s) c <> None))
    with (stats_file := stats_file) (st := st); [|exact Hin|exact Hrun].
  clear. intros line rest s rest' s' Hs Hturn.
  destruct Hturn; try exact Hs.
  rewrite registered_get. destruct (String.eqb _ c); [discriminate|exact Hs].
Qed.

(** While no line is a header with the code [c], the entry under [c]
    stays what it is. *)
Lemma scan_frames_code (c : string) (stats_file : list string)
      (st st_end : FileHandler.state) :
  Forall (fun l => heads c l = false) stats_file ->
  FileHandler.scan stats_file st = FileHandler.Returned st_end ->
  StatsFileObject.get_section (FileHandler.stats_file_object st_end) c
  = StatsFileObject.get_section (FileHandler.stats_file_object st) c
  /\ entries (sections_of st_end) c = entries (sections_of st) c.
Proof.
  intros Hall Hrun.
  pose (Inv := fun (rem : list string) (s : FileHandler.state) =>
    Forall (fun l => heads c l = false) rem /\
    StatsFileObject.get_section (FileHandler.stats_file_object s) c
    = StatsFileObject.get_section (FileHandler.stats_file_object st) c /\
    entries (sections_of s) c = entries (sections_of st) c).
  assert (Hend : Inv [] st_end).
  { apply (scan_invariant Inv) with (stats_file := stats_file) (st := st);
      [|now repeat split|exact Hrun].
    clear. intros line rest s rest' s' [Hall [Hget Hent]] Hturn.
    inversion Hall as [|? ? Hline Hrest]; subst.
    destruct Hturn as [_|columns body rest' Hh Hc Hw Hbody Hr
                      |columns body bad rest' actions' Hh Hc Hw Hbody Hnb Hf Hr Hrm].
    - now repeat split.
    - unfold heads in Hline. rewrite Hh in Hline. simpl in Hline.
      assert (Hne : c <> FileHandler.title_of line).
      { intros ->. now rewrite String.eqb_refl in Hline. }
      split; [|split].
      + destruct Hr as [[_ ->]|[b [_ ->]]]; [constructor|].
        apply Forall_app in Hrest. destruct Hrest as [_ Hrest].
        now inversion Hrest.
      + rewrite registered_get, Hline. exact Hget.
      + unfold sections_of in *. simpl.
        rewrite entries_set_other by exact Hne. exact Hent.
    - split; [|now split]. subst rest.
      apply Forall_app in Hrest. destruct Hrest as [_ Hrest].
      now inversion Hrest. }
  destruct Hend as [_ H]. exact H.
Qed.

(** The object that [parse] returns never has two entries under one
    code. *)
Lemma parse_at_most_one_entry (actions : list string) (file : list string)
      (st : FileHandler.state) (c : string) :
  FileHandler.parse actions file = FileHandler.Returned st ->
  entries (sections_of st) c <= 1.
Proof.
  intros Hrun.
  apply (scan_invariant (fun _ s => forall c, entries (sections_of s) c <= 1))
    with (stats_file := file) (3 := Hrun).
  - clear. intros line rest s rest' s' Hs Hturn c.
    destruct Hturn; try apply Hs.
    unfold sections_of. simpl.
    destruct (String.eqb c (FileHandler.title_of line)) eqn:E.
    + apply String.eqb_eq in E. subst c. rewrite entries_set_same.
      specialize (Hs (FileHandler.title_of line)).
      unfold sections_of in Hs. lia.
    + apply String.eqb_neq in E. rewrite entries_set_other by exact E.
      apply Hs.
  - intros c0. unfold entries, sections_of. simpl. lia.
Qed.

(** * The claims *)

(** C1 (the code falls short of it).  The claim: when [Section.parse]
    returns, the next line the loop of [FileHandler.parse] reads is the
    line that ended the section.  On [adjacent_file], requested
    [["dp"]]: [Section.parse] for SN reads the rows up to and including
    the DP header, which is a boundary; the iterator it leaves starts at
    the DP row, so the loop never sees the DP header, and the requested
    section DP is missing from the object returned. *)
Theorem handoff_reads_past_boundary :
  VchkSection.parse (VchkSection.init "sn" ["id"; "key"; "value"] sn_header)
                    [sn_row; dp_header; dp_row; psc_header; psc_row]
  = (inr (section_of sn_header ["id"; "key"; "value"] [sn_row]),
     [dp_row; psc_header; psc_row])
  /\ is_boundary dp_header = true
  /\ FileHandler.SECTION_HEADER_PATTERN dp_header = true
  /\ FileHandler.parse ["dp"] adjacent_file
     = FileHandler.Returned
         {| FileHandler.stats_file_object :=
              {| StatsFileObject._sections :=
                   [("sn", section_of sn_header ["id"; "key"; "value"] [sn_row])] |};
            FileHandler._actions := ["dp"];
            FileHandler.stderr := [] |}.
Proof. repeat split; vm_compute; reflexivity. Qed.

(** C2 (the code falls short of it).  The claim: after a misshapen row
    the section is left out, its code leaves the requested list, a
    diagnostic is written and the scan goes on.  On
    [short_summary_file], requested [["dp"]]: the summary section is
    parsed although [sn] is not in the list, its row is misshapen, and
    [self._actions.remove("sn")] raises before the diagnostic is
    written; the run ends with the uncaught [ValueError], nothing on the
    error channel and the section DP behind never looked at. *)
Theorem recovery_raises_for_unrequested_summary :
  fits ["id"; "key"; "value"] (tsv ["SN"; "0"]) = false
  /\ FileHandler.parse ["dp"] short_summary_file
     = FileHandler.Uncaught
         (ValueError "list.remove(x): x not in list")
         {| FileHandler.stats_file_object := StatsFileObject.init;
            FileHandler._actions := ["dp"];
            FileHandler.stderr := [] |}.
Proof. split; vm_compute; reflexivity. Qed.

(** C3, as the claim states it, fails: [short_summary_file] has a header
    line for [sn], [sn] is requested, [parse] returns, and the object
    returned has no [sn] section (its row was misshapen, so the section
    was dropped and only DP is there). *)
Lemma summary_dropped_after_misshapen_row :
  FileHandler.SECTION_HEADER_PATTERN sn_header = true
  /\ FileHandler.title_of sn_header = "sn"
  /\ In sn_header short_summary_file
  /\ exists st,
       FileHandler.parse ["sn"; "dp"] short_summary_file = FileHandler.Returned st
       /\ StatsFileObject.get_section (FileHandler.stats_file_object st) "sn" = None
       /\ Py.keys (sections_of st) = ["dp"].
Proof.
  split; [reflexivity|]. split; [reflexivity|]. split; [now left|].
  eexists. split; [vm_compute; reflexivity|]. split; reflexivity.
Qed.

(** C3, amended.  For every requested list and every state of the scan:
    when the loop reads a header line for [sn] (no line of [pre] before
    it is a header), the header's column fields are well-formed and
    every body line up to the end of the section has as many fields as
    columns, then the object [parse] returns has an [sn] section. *)
Theorem summary_included_when_well_shaped
        (st0 : FileHandler.state) (pre : list string) (header : string)
        (columns : list string) (body rest : list string)
        (st : FileHandler.state) :
  Forall (fun l => FileHandler.SECTION_HEADER_PATTERN l = false) pre ->
  FileHandler.SECTION_HEADER_PATTERN header = true ->
  FileHandler.title_of header = "sn" ->
  FileHandler.columns_of header = Some columns ->
  Forall (body_line columns) body ->
  at_section_end rest = true ->
  FileHandler.scan (pre ++ header :: body ++ rest) st0 = FileHandler.Returned st ->
  exists sec,
    StatsFileObject.get_section (FileHandler.stats_file_object st) "sn" = Some sec.
Proof.
  intros Hpre Hh Ht Hc Hbody Hend Hrun.
  rewrite scan_skips_lines in Hrun by exact Hpre.
  assert (Hw : wanted st0 (FileHandler.title_of header) = true).
  { unfold wanted. rewrite Ht. apply orb_true_r. }
  rewrite (scan_registers _ _ columns) in Hrun by assumption.
  apply scan_keeps_entries with (c := "sn") in Hrun.
  - destruct (StatsFileObject.get_section _ "sn") as [sec|]; [eauto|congruence].
  - rewrite registered_get, Ht. discriminate.
Qed.

Lemma summary_included_when_well_shaped_witness :
  exists sec,
    StatsFileObject.get_section
      (FileHandler.stats_file_object
         (final_state (FileHandler.parse ["dp"] commented_file))) "sn"
    = Some sec.
Proof.
  apply (summary_included_when_well_shaped
           {| FileHandler.stats_file_object := StatsFileObject.init;
              FileHandler._actions := ["dp"];
              FileHandler.stderr := [] |}
           [tsv ["# SN, Summary numbers:"]] sn_header
           ["id"; "key"; "value"] [sn_row]
           [tsv ["# DP, Depth distribution:"]; dp_header; dp_row;
            tsv ["# PSC, Per-sample counts:"]; psc_header; psc_row]).
  - repeat constructor.
  - reflexivity.
  - reflexivity.
  - reflexivity.
  - repeat constructor.
  - reflexivity.
  - vm_compute. reflexivity.
Defined.

(** C5 (the code falls short of it).  The claim: a header line with a
    column field that is not of the form [[digits]name] makes [parse]
    exit, whichever section it heads.  On [malformed_header_file],
    requested [["dp"]]: the third line matches the header pattern and
    its field [depth] is no column name, but it is the boundary that
    [Section.parse] for SN reads and drops (the defect of C1), so
    [check_and_clean] is never called on it: [parse] returns an object,
    with no diagnostic.  Read by the loop itself, the same line exits. *)
Theorem malformed_header_behind_section_goes_unseen :
  FileHandler.SECTION_HEADER_PATTERN malformed_dp_header = true
  /\ FileHandler.check_and_clean (tsv ["depth"]) = None
  /\ FileHandler.columns_of malformed_dp_header = None
  /\ FileHandler.parse ["dp"] malformed_header_file
     = FileHandler.Returned
         {| FileHandler.stats_file_object :=
              {| StatsFileObject._sections :=
                   [("sn", section_of sn_header ["id"; "key"; "value"] [sn_row])] |};
            FileHandler._actions := ["dp"];
            FileHandler.stderr := [] |}
  /\ FileHandler.parse ["dp"] [malformed_dp_header; tsv ["DP"; "5"]]
     = FileHandler.Uncaught
         (SystemExit 1)
         {| FileHandler.stats_file_object := StatsFileObject.init;
            FileHandler._actions := ["dp"];
            FileHandler.stderr := ["Error: File not in correct format"] |}.
Proof. repeat split; vm_compute; reflexivity. Qed.

(** C7.  Every section of the object [parse] returns holds, as its raw
    text, a header line of the file with its code followed by the body
    lines up to the next line that starts with [#] or the end of input,
    in order; joined, the lines of [get_text] are the header followed by
    the joined body lines, terminators included. *)
Theorem raw_text_round_trip
        (actions : list string) (file : list string)
        (st : FileHandler.state) (c : string) (sec : VchkSection.t) :
  FileHandler.parse actions file = FileHandler.Returned st ->
  StatsFileObject.get_section (FileHandler.stats_file_object st) c = Some sec ->
  exists pre header body post,
    file = pre ++ header :: body ++ post
    /\ FileHandler.SECTION_HEADER_PATTERN header = true
    /\ FileHandler.title_of header = c
    /\ Forall (fun l => is_boundary l = false) body
    /\ at_section_end post = true
    /\ VchkSection.get_text sec = header :: body
    /\ String.concat "" (VchkSection.get_text sec)
       = (header ++ String.concat "" body)%string.
Proof.
  intros Hrun Hget.
  destruct (registered_origin _ _ _ _ _ Hrun Hget)
    as (pre & header & columns & body & post
        & Hfile & Hh & Ht & Hc & Hw & Hbody & Hend & ->).
  exists pre, header, body, post.
  repeat split; try assumption.
  - eapply Forall_impl; [|exact Hbody]. now intros l [Hl _].
  - unfold VchkSection.get_text. simpl.
    destruct body as [|l body]; simpl; [|reflexivity].
    clear. induction header as [|a h IH]; simpl; [reflexivity|now rewrite <- IH].
Qed.

Lemma raw_text_round_trip_witness :
  exists pre header body post,
    commented_file = pre ++ header :: body ++ post
    /\ FileHandler.SECTION_HEADER_PATTERN header = true
    /\ FileHandler.title_of header = "dp"
    /\ Forall (fun l => is_boundary l = false) body
    /\ at_section_end post = true
    /\ VchkSection.get_text (section_of dp_header ["id"; "bin"; "count"] [dp_row])
       = header :: body
    /\ String.concat ""
         (VchkSection.get_text (section_of dp_header ["id"; "bin"; "count"] [dp_row]))
       = (header ++ String.concat "" body)%string.
Proof.
  apply (raw_text_round_trip
           ["dp"] commented_file
           (final_state (FileHandler.parse ["dp"] commented_file)) "dp").
  - vm_compute. reflexivity.
  - vm_compute. reflexivity.
Defined.

(** C8.  Every section of the object [parse] returns has its table
    materialized from its columns and rows, and every row of the table
    has exactly as many values as there are columns. *)
Theorem finalized_rows_match_columns
        (actions : list string) (file : list string)
        (st : FileHandler.state) (c : string) (sec : VchkSection.t) :
  FileHandler.parse actions file = FileHandler.Returned st ->
  StatsFileObject.get_section (FileHandler.stats_file_object st) c = Some sec ->
  exists df,
    VchkSection._data_frame sec = Some df
    /\ VchkSection.columns df = VchkSection._columns sec
    /\ VchkSection.data df = VchkSection._rows sec
    /\ Forall (fun row => length row = length (VchkSection.columns df))
              (VchkSection.data df).
Proof.
  intros Hrun Hget.
  destruct (registered_origin _ _ _ _ _ Hrun Hget)
    as (pre & header & columns & body & post
        & Hfile & Hh & Ht & Hc & Hw & Hbody & Hend & ->).
  eexists. split; [reflexivity|]. simpl. repeat split.
  apply Forall_map. eapply Forall_impl; [|exact Hbody].
  intros l [_ Hfit]. unfold row_of. rewrite length_map.
  unfold fits in Hfit. now apply Nat.eqb_eq in Hfit.
Qed.

Lemma finalized_rows_match_columns_witness :
  exists df,
    VchkSection._data_frame (section_of dp_header ["id"; "bin"; "count"] [dp_row])
    = Some df
    /\ VchkSection.columns df = ["id"; "bin"; "count"]
    /\ VchkSection.data df = [[PyInt 0; PyInt 1; PyInt 5]]
    /\ Forall (fun row => length row = length (VchkSection.columns df))
              (VchkSection.data df).
Proof.
  apply (finalized_rows_match_columns
           ["dp"] commented_file
           (final_state (FileHandler.parse ["dp"] commented_file)) "dp").
  - vm_compute. reflexivity.
  - vm_compute. reflexivity.
Defined.

(** C9 (the code falls short of it in the example).  What the claim
    says of sections that are not wanted holds: [unrequested_absent],
    [scan_skips_unwanted] and [body_never_header] above.  Its example
    does not hold on every well-formed file with the three headers: on
    [adjacent_file], requested [["dp"]], the header of DP is the
    boundary that [Section.parse] for SN reads and drops (the defect of
    C1), so the object returned holds [sn] alone and the requested [dp]
    is missing.  With a comment line before each header, as in
    [commented_file], the object holds [sn] and [dp] and not [psc]. *)
Theorem scenario_loses_requested_section :
  map FileHandler.title_of [sn_header; dp_header; psc_header] = ["sn"; "dp"; "psc"]
  /\ forallb FileHandler.SECTION_HEADER_PATTERN [sn_header; dp_header; psc_header]
     = true
  /\ (exists st,
         FileHandler.parse ["dp"] adjacent_file = FileHandler.Returned st
         /\ Py.keys (sections_of st) = ["sn"]
         /\ StatsFileObject.get_section (FileHandler.stats_file_object st) "dp"
            = None)
  /\ (exists st,
         FileHandler.parse ["dp"] commented_file = FileHandler.Returned st
         /\ Py.keys (sections_of st) = ["sn"; "dp"]).
Proof.
  split; [reflexivity|]. split; [reflexivity|]. split.
  - eexists. split; [vm_compute; reflexivity|]. split; reflexivity.
  - eexists. split; [vm_compute; reflexivity|]. reflexivity.
Qed.

(** C10 (the code falls short of it).  The claim: when one code heads
    two or more sections, the object holds one entry for it, the last
    occurrence.  On [adjacent_twice_dp_file], requested [["dp"]]: the
    second DP header is the boundary that [Section.parse] for the first
    DP section reads and drops (the defect of C1), so the second section
    is never parsed and [get_section] gives the first occurrence, with
    the row of [dp_row] and not that of [dp_row'].  With a comment line
    between the two sections, as in [twice_dp_file], the entry is the
    last occurrence. *)
Theorem adjacent_duplicate_keeps_first_occurrence :
  FileHandler.parse ["dp"] adjacent_twice_dp_file
  = FileHandler.Returned
      {| FileHandler.stats_file_object :=
           {| StatsFileObject._sections :=
                [("dp", section_of dp_header ["id"; "bin"; "count"] [dp_row])] |};
         FileHandler._actions := ["dp"];
         FileHandler.stderr := [] |}
  /\ VchkSection._rows (section_of dp_header ["id"; "bin"; "count"] [dp_row])
     = [[PyInt 0; PyInt 1; PyInt 5]]
  /\ VchkSection._rows (section_of dp_header ["id"; "bin"; "count"] [dp_row'])
     = [[PyInt 0; PyInt 2; PyInt 7]]
  /\ FileHandler.parse ["dp"] twice_dp_file
     = FileHandler.Returned
         {| FileHandler.stats_file_object :=
              {| StatsFileObject._sections :=
                   [("dp", section_of dp_header ["id"; "bin"; "count"] [dp_row'])] |};
            FileHandler._actions := ["dp"];
            FileHandler.stderr := [] |}.
Proof. repeat split; vm_compute; reflexivity. Qed.

(** X20.  In whatever state the scan is, in particular with a section
    already registered under the same code: when the loop reads the
    header of a wanted section whose body lines all have the right
    shape, and no line behind that section is a header with the same
    code, the object [parse] returns has exactly one entry for the code,
    and [get_section] gives this section, the one parsed last. *)
Theorem duplicate_code_last_parsed_wins
        (st0 : FileHandler.state) (header : string) (columns : list string)
        (body rest : list string) (st : FileHandler.state) :
  entries (sections_of st0) (FileHandler.title_of header) <= 1 ->
  FileHandler.SECTION_HEADER_PATTERN header = true ->
  FileHandler.columns_of header = Some columns ->
  wanted st0 (FileHandler.title_of header) = true ->
  Forall (body_line columns) body ->
  at_section_end rest = true ->
  Forall (fun l => heads (FileHandler.title_of header) l = false) rest ->
  FileHandler.scan (header :: body ++ rest) st0 = FileHandler.Returned st ->
  entries (sections_of st) (FileHandler.title_of header) = 1
  /\ StatsFileObject.get_section (FileHandler.stats_file_object st)
                                 (FileHandler.title_of header)
     = Some (section_of header columns body).
Proof.
  intros Hone Hh Hc Hw Hbody Hend Hlater Hrun.
  rewrite (scan_registers _ _ columns) in Hrun by assumption.
  apply scan_frames_code with (c := FileHandler.title_of header) in Hrun.
  - destruct Hrun as [Hget Hent]. split.
    + rewrite Hent. unfold sections_of. simpl.
      rewrite entries_set_same. unfold sections_of in Hone. lia.
    + rewrite Hget, registered_get. now rewrite String.eqb_refl.
  - destruct rest as [|b rest]; [constructor|]. now inversion Hlater.
Qed.

Lemma duplicate_code_last_parsed_wins_witness :
  FileHandler.parse ["dp"] twice_dp_file
  = FileHandler.scan
      [dp_header; dp_row']
      (FileHandler.registered
         {| FileHandler.stats_file_object := StatsFileObject.init;
            FileHandler._actions := ["dp"];
            FileHandler.stderr := [] |}
         "dp" (section_of dp_header ["id"; "bin"; "count"] [dp_row]))
  /\ entries (sections_of (final_state (FileHandler.parse ["dp"] twice_dp_file)))
             "dp" = 1
  /\ StatsFileObject.get_section
       (FileHandler.stats_file_object
          (final_state (FileHandler.parse ["dp"] twice_dp_file))) "dp"
     = Some (section_of dp_header ["id"; "bin"; "count"] [dp_row']).
Proof.
  split; [vm_compute; reflexivity|].
  apply (duplicate_code_last_parsed_wins
           (FileHandler.registered
              {| FileHandler.stats_file_object := StatsFileObject.init;
                 FileHandler._actions := ["dp"];
                 FileHandler.stderr := [] |}
              "dp" (section_of dp_header ["id"; "bin"; "count"] [dp_row]))
           dp_header ["id"; "bin"; "count"] [dp_row'] []).
  - vm_compute. lia.
  - reflexivity.
  - reflexivity.
  - reflexivity.
  - repeat constructor.
  - reflexivity.
  - constructor.
  - vm_compute. reflexivity.
Defined.

(** ** Column names *)

Lemma is_line_split (s : string) :
  is_line s = true ->
  Forall (fun f => is_line f = true) (Py.split Py.TAB s).
Proof.
  induction s as [|c r IH]; intros H; simpl.
  - now repeat constructor.
  - simpl in H. destruct (Ascii.eqb c Py.TAB) eqn:Et.
    + apply Ascii.eqb_eq in Et. subst c. simpl in H.
      constructor; [reflexivity|now apply IH].
    + destruct (Ascii.eqb c Py.LF) eqn:El.
      * destruct r; [|discriminate]. simpl.
        constructor; [|constructor]. simpl. now rewrite El.
      * specialize (IH H). destruct (Py.split Py.TAB r) as [|f fs].
        -- constructor; [|constructor]. simpl. now rewrite El.
        -- inversion IH; subst. constructor; [|assumption].
           simpl. now rewrite El.
Qed.

Lemma is_line_lstrip (s : string) :
  is_line s = true -> is_line (Py.lstrip s) = true.
Proof.
  induction s as [|c r IH]; intros H; [reflexivity|]. simpl.
  destruct (Py.isspace c); [|exact H].
  apply IH. simpl in H. destruct (Ascii.eqb c Py.LF); [|exact H].
  now destruct r.
Qed.

Lemma isspace_LF : Py.isspace Py.LF = true.
Proof. reflexivity. Qed.

Lemma no_lf_rstrip (s : string) :
  is_line s = true -> no_lf (Py.rstrip s) = true.
Proof.
  induction s as [|c r IH]; intros H; [reflexivity|]. simpl in *.
  destruct (Ascii.eqb c Py.LF) eqn:El.
  - destruct r; [|discriminate]. simpl.
    apply Ascii.eqb_eq in El. subst c. now rewrite isspace_LF.
  - specialize (IH H). destruct (Py.rstrip r) as [|c' r'].
    + destruct (Py.isspace c); [reflexivity|].
      unfold no_lf. simpl. now rewrite El.
    + unfold no_lf in *. simpl in *. now rewrite El.
Qed.

Lemma remove_char_no_lf (s : string) :
  no_lf s = true -> Py.remove_char Py.LF s = s.
Proof.
  unfold no_lf. induction s as [|c r IH]; intros H; [reflexivity|].
  simpl in *. apply andb_true_iff in H. destruct H as [Hc Hr].
  apply negb_true_iff in Hc. rewrite Hc. now rewrite IH.
Qed.

Lemma span_all (p : ascii -> bool) (s : string) :
  Py.forallb p s = true -> Py.span p s = (s, EmptyString).
Proof.
  induction s as [|c r IH]; intros H; [reflexivity|]. simpl in *.
  apply andb_true_iff in H. destruct H as [-> Hr]. now rewrite IH.
Qed.

Lemma span_keeps (q p : ascii -> bool) (s a b : string) :
  Py.span p s = (a, b) ->
  Py.forallb q s = true -> Py.forallb q b = true.
Proof.
  revert a. induction s as [|c r IH]; intros a H Hq; simpl in H.
  - now inversion H.
  - destruct (p c).
    + destruct (Py.span p r) as [a' b'] eqn:E. inversion H; subst.
      simpl in Hq. apply andb_true_iff in Hq. now apply (IH a').
    + now inversion H; subst.
Qed.

Lemma span_digits_bracket (s ds s2 : string) :
  Py.span Py.isdigit s = (ds, String "]" s2) -> after_bracket s = s2.
Proof.
  revert ds. induction s as [|c r IH]; intros ds H; simpl in H; [discriminate|].
  destruct (Py.isdigit c) eqn:Ed.
  - destruct (Py.span Py.isdigit r) as [a b] eqn:E. inversion H; subst.
    simpl. destruct (Ascii.eqb c "]") eqn:Eb.
    + apply Ascii.eqb_eq in Eb. subst c. discriminate.
    + now apply (IH a).
  - inversion H; subst. reflexivity.
Qed.

(** On a text without line feed, the group that the column pattern
    captures is the text behind the first closing bracket. *)
Lemma constituent_after_bracket (s g : string) :
  no_lf s = true ->
  FileHandler.SECTION_HEADER_CONSTITUENT s = Some g ->
  after_bracket s = g.
Proof.
  intros Hlf H. destruct s as [|c s1]; [discriminate|].
  destruct c as [[] [] [] [] [] [] [] []]; try discriminate.
  cbn [FileHandler.SECTION_HEADER_CONSTITUENT] in H.
  destruct (Py.span Py.isdigit s1) as [ds rest] eqn:Es.
  destruct rest as [|c s2]; [discriminate|].
  destruct c as [[] [] [] [] [] [] [] []]; try discriminate.
  assert (Hs2 : no_lf s2 = true).
  { unfold no_lf in *. simpl in Hlf.
    pose proof (span_keeps _ _ _ _ _ Es Hlf) as Hk. simpl in Hk. exact Hk. }
  unfold no_lf in Hs2. rewrite (span_all _ _ Hs2) in H. simpl in H.
  destruct (Py.nonempty ds && Py.nonempty s2); [|discriminate].
  inversion H; subst.
  change (after_bracket s1 = g). now apply (span_digits_bracket _ ds).
Qed.

Lemma check_and_clean_spec (field name : string) :
  is_line field = true ->
  FileHandler.check_and_clean field = Some name ->
  name = spec_column_name field.
Proof.
  intros Hl H. unfold FileHandler.check_and_clean in H.
  assert (Hlf : no_lf (Py.strip field) = true).
  { unfold Py.strip. now apply no_lf_rstrip, is_line_lstrip. }
  rewrite (remove_char_no_lf _ Hlf) in H.
  destruct (FileHandler.SECTION_HEADER_CONSTITUENT (Py.strip field)) as [g|] eqn:E;
    [|discriminate].
  inversion H; subst. unfold spec_column_name.
  now rewrite (constituent_after_bracket _ _ Hlf E).
Qed.

Lemma map_check_and_clean_spec (fields : list string) :
  forall columns,
    Forall (fun f => is_line f = true) fields ->
    FileHandler.map_check_and_clean fields = Some columns ->
    columns = map spec_column_name fields.
Proof.
  induction fields as [|f fs IH]; intros columns Hl H; simpl in H.
  - now inversion H.
  - inversion Hl as [|? ? Hf Hfs]; subst.
    destruct (FileHandler.check_and_clean f) as [name|] eqn:E; [|discriminate].
    destruct (FileHandler.map_check_and_clean fs) as [names|] eqn:Es; [|discriminate].
    inversion H; subst. simpl.
    now rewrite (check_and_clean_spec _ _ Hf E), (IH names Hfs eq_refl).
Qed.

(** C6.  For every line read from the file that matches the header
    pattern and whose column fields are all accepted, the columns
    extracted are, in the order of the tab-separated fields behind the
    code, the names as the specification words them (field trimmed,
    bracket index stripped, lower-cased); the field [[3]Quality] gives
    the column [quality]. *)
Theorem columns_are_cleaned_header_fields
        (line : string) (columns : list string) :
  is_line line = true ->
  FileHandler.SECTION_HEADER_PATTERN line = true ->
  FileHandler.columns_of line = Some columns ->
  columns = map spec_column_name (tl (Py.split Py.TAB line))
  /\ FileHandler.check_and_clean "[3]Quality" = Some "quality".
Proof.
  intros Hl _ Hc. split; [|reflexivity].
  apply map_check_and_clean_spec; [|exact Hc].
  pose proof (is_line_split _ Hl) as Hs.
  destruct (Py.split Py.TAB line); [constructor|now inversion Hs].
Qed.

Lemma columns_are_cleaned_header_fields_witness :
  ["id"; "quality"; "number of snps"]
  = map spec_column_name
        (tl (Py.split Py.TAB
                      (tsv ["# QUAL"; "[2]id"; "[3]Quality"; "[4]number of SNPs"])))
  /\ FileHandler.check_and_clean "[3]Quality" = Some "quality".
Proof.
  apply (columns_are_cleaned_header_fields
           (tsv ["# QUAL"; "[2]id"; "[3]Quality"; "[4]number of SNPs"])
           ["id"; "quality"; "number of snps"]).
  - reflexivity.
  - reflexivity.
  - reflexivity.
Defined.

(** * Further properties of the code *)

(** ** The actions that the argument parser extracts *)

Lemma filter_map_commute {A B : Type} (f : A -> B) (p : B -> bool) (l : list A) :
  filter p (map f l) = map f (filter (fun x => p (f x)) l).
Proof.
  induction l as [|a l IH]; simpl; [reflexivity|].
  destruct (p (f a)); simpl; now rewrite IH.
Qed.

Lemma filter_all {A : Type} (p : A -> bool) (l : list A) :
  (forall x, In x l -> p x = true) -> filter p l = l.
Proof.
  induction l as [|a l IH]; intros H; simpl; [reflexivity|].
  rewrite (H a (or_introl eq_refl)). f_equal. apply IH.
  intros x Hx. apply H. now right.
Qed.

Lemma filter_none {A : Type} (p : A -> bool) (l : list A) :
  (forall x, In x l -> p x = false) -> filter p l = [].
Proof.
  induction l as [|a l IH]; intros H; simpl; [reflexivity|].
  rewrite (H a (or_introl eq_refl)). apply IH.
  intros x Hx. apply H. now right.
Qed.

(** Selecting among names whose lower-cased forms differ gives codes that
    differ. *)
Lemma selection_keeps_codes_distinct (keep : string -> bool) (names : list string) :
  NoDup (map Py.lower names) ->
  NoDup (map Py.lower (filter keep names)).
Proof.
  induction names as [|name names IH]; simpl; intros Hnd; [constructor|].
  inversion Hnd as [|? ? Hfresh Hrest]; subst.
  destruct (keep name); simpl; [|now apply IH].
  constructor; [|now apply IH].
  intros Hin. apply Hfresh. apply in_map_iff in Hin.
  destruct Hin as [other [Hsame Hin]]. apply filter_In in Hin.
  apply in_map_iff. exists other. now split.
Qed.

(** Both branches of [_sanity_check_arguments] select by one test. *)
Lemma sanity_check_actions (stderr : list string)
      (args : CustomArgumentParser.Namespace) :
  fst (CustomArgumentParser._sanity_check_arguments stderr args)
  = map Py.lower
        (filter (fun name =>
                   CustomArgumentParser.truthy (CustomArgumentParser.flag args name)
                   || (CustomArgumentParser.ALL args
                       && CustomArgumentParser.is_None
                            (CustomArgumentParser.flag args name)))
                argument_names).
Proof.
  unfold CustomArgumentParser._sanity_check_arguments, argument_names.
  rewrite filter_map_commute, map_map.
  destruct (CustomArgumentParser.ALL args); cbn [fst]; f_equal;
    apply filter_ext; intros [name help]; cbn [fst andb];
      rewrite ?orb_false_r; reflexivity.
Qed.

Lemma selected_test (args : CustomArgumentParser.Namespace) (name : string) :
  CustomArgumentParser.truthy (CustomArgumentParser.flag args name)
  || (CustomArgumentParser.ALL args
      && CustomArgumentParser.is_None (CustomArgumentParser.flag args name))
  = true
  <-> selected args name.
Proof.
  unfold selected.
  destruct (CustomArgumentParser.flag args name) as [[|]|];
    destruct (CustomArgumentParser.ALL args); simpl; split;
      intros H; try discriminate; auto;
        destruct H as [H|[H1 H2]]; discriminate.
Qed.

(** X1.  A code is among the actions exactly when it is the lower-cased
    name of a standalone argument whose flag was given, or, under
    [--ALL], whose flag was not given at all: [-no-NAME] takes a section
    out of [--ALL], and without [--ALL] only the flags given count. *)
Theorem actions_are_the_selected_codes
        (stderr : list string) (args : CustomArgumentParser.Namespace)
        (c : string) :
  In c (fst (CustomArgumentParser._sanity_check_arguments stderr args))
  <-> exists name,
        In name argument_names /\ c = Py.lower name /\ selected args name.
Proof.
  rewrite sanity_check_actions, in_map_iff. split.
  - intros [name [Hc Hin]]. apply filter_In in Hin. destruct Hin as [Hin Hsel].
    exists name. repeat split; auto. now apply selected_test.
  - intros [name [Hin [Hc Hsel]]]. exists name. split; [auto|].
    apply filter_In. split; [exact Hin|]. now apply selected_test.
Qed.

(** X2.  Whatever the command line, the actions hold no code twice and
    only codes of the eleven sections of the table. *)
Theorem actions_are_distinct_section_codes
        (stderr : list string) (args : CustomArgumentParser.Namespace) :
  NoDup (fst (CustomArgumentParser._sanity_check_arguments stderr args))
  /\ incl (fst (CustomArgumentParser._sanity_check_arguments stderr args))
          section_codes.
Proof.
  rewrite sanity_check_actions. split.
  - apply selection_keeps_codes_distinct.
    change (map Py.lower argument_names) with section_codes.
    unfold section_codes.
    repeat (constructor; [simpl; intuition discriminate|]). constructor.
  - intros c Hc. apply in_map_iff in Hc. destruct Hc as [name [<- Hin]].
    apply filter_In in Hin. destruct Hin as [Hin _].
    change section_codes with (map Py.lower argument_names).
    now apply in_map.
Qed.

(** X3.  Under [--ALL], when no [-no-NAME] flag was given, the actions
    are the codes of all eleven sections, in the order of the table. *)
Theorem all_selects_every_section
        (stderr : list string) (args : CustomArgumentParser.Namespace) :
  CustomArgumentParser.ALL args = true ->
  (forall name, In name argument_names ->
                CustomArgumentParser.flag args name <> Some false) ->
  fst (CustomArgumentParser._sanity_check_arguments stderr args) = section_codes.
Proof.
  intros Hall Hno. rewrite sanity_check_actions, filter_all; [reflexivity|].
  intros name Hin. specialize (Hno name Hin). rewrite Hall.
  destruct (CustomArgumentParser.flag args name) as [[|]|]; simpl; congruence.
Qed.

Lemma all_selects_every_section_witness :
  fst (CustomArgumentParser._sanity_check_arguments
         []
         {| CustomArgumentParser.in_dir := "in.vchk";
            CustomArgumentParser.out_dir := "out";
            CustomArgumentParser.flag :=
              fun name => if String.eqb name "DP" then Some true else None;
            CustomArgumentParser.ALL := true;
            CustomArgumentParser.verbose := false |})
  = section_codes.
Proof.
  apply all_selects_every_section.
  - reflexivity.
  - intros name _. simpl. destruct (String.eqb name "DP"); discriminate.
Defined.

(** X4.  Without [--ALL], when no section flag was given, there are no
    actions, and the warning that nothing was chosen is written exactly
    in verbose mode. *)
Theorem no_flag_selects_nothing
        (stderr : list string) (args : CustomArgumentParser.Namespace) :
  CustomArgumentParser.ALL args = false ->
  (forall name, In name argument_names ->
                CustomArgumentParser.flag args name <> Some true) ->
  CustomArgumentParser._sanity_check_arguments stderr args
  = ([], warn stderr (CustomArgumentParser.verbose args)
              "No arguments have been chosen, program will now terminate.").
Proof.
  intros Hall Hno.
  assert (Hany : CustomArgumentParser.any_flag args = false).
  { unfold CustomArgumentParser.any_flag.
    apply not_true_is_false. intros H. apply existsb_exists in H.
    destruct H as [[name help] [Hin Ht]]. simpl in Ht.
    apply (Hno name).
    - unfold argument_names. now apply (in_map fst) in Hin.
    - now destruct (CustomArgumentParser.flag args name) as [[|]|]. }
  pose proof (sanity_check_actions stderr args) as Hact.
  rewrite filter_none in Hact.
  - unfold CustomArgumentParser._sanity_check_arguments in *.
    rewrite Hall, Hany in *. simpl in *. now rewrite Hact.
  - intros name Hin. specialize (Hno name Hin). rewrite Hall.
    destruct (CustomArgumentParser.flag args name) as [[|]|]; simpl; congruence.
Qed.

Lemma no_flag_selects_nothing_witness :
  CustomArgumentParser._sanity_check_arguments
    []
    {| CustomArgumentParser.in_dir := "in.vchk";
       CustomArgumentParser.out_dir := "out";
       CustomArgumentParser.flag :=
         fun name => if String.eqb name "PSC" then Some false else None;
       CustomArgumentParser.ALL := false;
       CustomArgumentParser.verbose := true |}
  = ([], ["Warning! No arguments have been chosen, program will now terminate."]).
Proof.
  apply (no_flag_selects_nothing
           []
           {| CustomArgumentParser.in_dir := "in.vchk";
              CustomArgumentParser.out_dir := "out";
              CustomArgumentParser.flag :=
                fun name => if String.eqb name "PSC" then Some false else None;
              CustomArgumentParser.ALL := false;
              CustomArgumentParser.verbose := true |}).
  - reflexivity.
  - intros name _. simpl. destruct (String.eqb name "PSC"); discriminate.
Defined.

(** ** The dict of a [StatsFileObject] *)

(** X5.  [get_section] after [add_section]: the section just added under
    its own name, and under every other name what was there before
    (absent names stay absent). *)
Theorem get_section_after_add_section
        (self : StatsFileObject.t) (name : string) (section : VchkSection.t)
        (name' : string) :
  StatsFileObject.get_section (StatsFileObject.add_section self name section) name'
  = if String.eqb name name' then Some section
    else StatsFileObject.get_section self name'.
Proof.
  unfold StatsFileObject.get_section, StatsFileObject.add_section. simpl.
  destruct (String.eqb name name') eqn:E.
  - apply String.eqb_eq in E. subst. apply dict_get_set_same.
  - apply dict_get_set_other. intros ->. now rewrite String.eqb_refl in E.
Qed.

(** ** Header lines *)

Lemma append_assoc (a b c : string) :
  ((a ++ b) ++ c = a ++ (b ++ c))%string.
Proof. induction a as [|x a IH]; simpl; [reflexivity|now rewrite IH]. Qed.


Lemma forallb_append (p : ascii -> bool) (a b : string) :
  Py.forallb p (a ++ b) = Py.forallb p a && Py.forallb p b.
Proof.
  induction a as [|x a IH]; simpl; [reflexivity|].
  now rewrite IH, andb_assoc.
Qed.

Lemma span_append (p : ascii -> bool) (s a b : string) :
  Py.span p s = (a, b) ->
  s = (a ++ b)%string /\ Py.forallb p a = true.
Proof.
  revert a b. induction s as [|c r IH]; intros a b H; simpl in H.
  - inversion H; subst. now split.
  - destruct (p c) eqn:Ep.
    + destruct (Py.span p r) as [a' b'] eqn:E. inversion H; subst.
      destruct (IH a' b eq_refl) as [-> Ha]. simpl. now rewrite Ep, Ha.
    + inversion H; subst. now split.
Qed.

Lemma span_stops (p : ascii -> bool) (a : string) (c : ascii) (b : string) :
  Py.forallb p a = true -> p c = false ->
  Py.span p (a ++ String c b) = (a, String c b).
Proof.
  intros Ha Hc. induction a as [|x a IH]; simpl in *.
  - now rewrite Hc.
  - apply andb_true_iff in Ha. destruct Ha as [-> Ha]. now rewrite IH.
Qed.

Lemma split_first_field (sep : ascii) (w r : string) :
  Py.forallb (fun c => negb (Ascii.eqb c sep)) w = true ->
  Py.split sep (w ++ String sep r) = w :: Py.split sep r.
Proof.
  intros Hw. induction w as [|c w IH]; simpl in *.
  - now rewrite Ascii.eqb_refl.
  - apply andb_true_iff in Hw. destruct Hw as [Hc Hw].
    apply negb_true_iff in Hc. now rewrite Hc, IH.
Qed.

Lemma forallb_weaken (p q : ascii -> bool) (s : string) :
  (forall c, p c = true -> q c = true) ->
  Py.forallb p s = true -> Py.forallb q s = true.
Proof.
  intros Himp. induction s as [|c s IH]; simpl; [reflexivity|].
  intros H. apply andb_true_iff in H. destruct H as [Hc Hs].
  now rewrite (Himp c Hc), IH.
Qed.

Lemma word_is_no_tab (c : ascii) :
  Py.isword c = true -> negb (Ascii.eqb c Py.TAB) = true.
Proof.
  intros H. destruct (Ascii.eqb c Py.TAB) eqn:E; [|reflexivity].
  apply Ascii.eqb_eq in E. subst c. discriminate H.
Qed.

(** What a line that matches the header pattern looks like, and how
    [split] cuts it. *)
Lemma header_shape (line : string) :
  FileHandler.SECTION_HEADER_PATTERN line = true ->
  exists code rest,
    line = String "#" (String " " (code ++ String Py.TAB rest))
    /\ Py.nonempty code = true
    /\ Py.forallb Py.isword code = true
    /\ Py.split Py.TAB line
       = String "#" (String " " code) :: Py.split Py.TAB rest.
Proof.
  intros H. destruct line as [|c0 line]; [discriminate|].
  destruct c0 as [[] [] [] [] [] [] [] []]; try discriminate.
  destruct line as [|c1 s]; [discriminate|].
  destruct c1 as [[] [] [] [] [] [] [] []]; try discriminate.
  cbn [FileHandler.SECTION_HEADER_PATTERN] in H.
  destruct (Py.span Py.isword s) as [w b] eqn:Es.
  destruct b as [|c r]; [discriminate|].
  apply andb_true_iff in H. destruct H as [Hw Hc].
  apply Ascii.eqb_eq in Hc. subst c.
  destruct (span_append _ _ _ _ Es) as [-> Hword].
  exists w, r. repeat split; try assumption.
  change (Py.split Py.TAB
            ((String "#" (String " " w)) ++ String Py.TAB r)
          = String "#" (String " " w) :: Py.split Py.TAB r).
  apply split_first_field. simpl.
  apply (forallb_weaken Py.isword); [apply word_is_no_tab|exact Hword].
Qed.

Lemma lower_char_idempotent (c : ascii) :
  Py.lower_char (Py.lower_char c) = Py.lower_char c.
Proof. destruct c as [[] [] [] [] [] [] [] []]; reflexivity. Qed.

Lemma lower_idempotent (s : string) : Py.lower (Py.lower s) = Py.lower s.
Proof.
  induction s as [|c s IH]; simpl; [reflexivity|].
  now rewrite lower_char_idempotent, IH.
Qed.

Lemma lower_nonempty (s : string) : Py.nonempty (Py.lower s) = Py.nonempty s.
Proof. now destruct s. Qed.

(** X6.  The title that [parse] cuts out of a header line with [split]
    and a slice is the lower-cased word that the header pattern
    captures: the line is ["# "], a non-empty word, a tab and the rest,
    and the title is that word in lower case, so it is non-empty and
    lower-casing it again changes nothing. *)
Theorem title_is_the_lowered_code (line : string) :
  FileHandler.SECTION_HEADER_PATTERN line = true ->
  exists code rest,
    line = String "#" (String " " (code ++ String Py.TAB rest))
    /\ Py.forallb Py.isword code = true
    /\ FileHandler.title_of line = Py.lower code
    /\ Py.nonempty (FileHandler.title_of line) = true
    /\ Py.lower (FileHandler.title_of line) = FileHandler.title_of line.
Proof.
  intros H. destruct (header_shape _ H) as (code & rest & Hline & Hne & Hw & Hs).
  exists code, rest.
  assert (Ht : FileHandler.title_of line = Py.lower code).
  { unfold FileHandler.title_of. now rewrite Hs. }
  repeat split; try assumption.
  - now rewrite Ht, lower_nonempty.
  - now rewrite Ht, lower_idempotent.
Qed.

Lemma title_is_the_lowered_code_witness :
  exists code rest,
    tsv ["# QUAL"; "[2]id"; "[3]Quality"]
    = String "#" (String " " (code ++ String Py.TAB rest))
    /\ Py.forallb Py.isword code = true
    /\ FileHandler.title_of (tsv ["# QUAL"; "[2]id"; "[3]Quality"]) = Py.lower code
    /\ Py.nonempty (FileHandler.title_of (tsv ["# QUAL"; "[2]id"; "[3]Quality"])) = true
    /\ Py.lower (FileHandler.title_of (tsv ["# QUAL"; "[2]id"; "[3]Quality"]))
       = FileHandler.title_of (tsv ["# QUAL"; "[2]id"; "[3]Quality"]).
Proof.
  apply (title_is_the_lowered_code (tsv ["# QUAL"; "[2]id"; "[3]Quality"])).
  reflexivity.
Defined.

(** ** Column fields *)

Lemma no_lf_remove_char (s : string) : no_lf (Py.remove_char Py.LF s) = true.
Proof.
  unfold no_lf. induction s as [|c s IH]; simpl; [reflexivity|].
  destruct (Ascii.eqb c Py.LF) eqn:E; [exact IH|]. simpl. now rewrite E, IH.
Qed.

(** What [check_and_clean] accepts: after the cleaning the field is an
    opening bracket, digits, a closing bracket and a non-empty name. *)
Lemma check_and_clean_shape (field name : string) :
  FileHandler.check_and_clean field = Some name ->
  exists ds g,
    cleaned field = String "[" (ds ++ String "]" g)
    /\ Py.nonempty ds = true
    /\ Py.forallb Py.isdigit ds = true
    /\ Py.nonempty g = true
    /\ name = Py.lower g.
Proof.
  unfold FileHandler.check_and_clean. fold (cleaned field).
  pose proof (no_lf_remove_char (Py.strip field)) as Hlf. fold (cleaned field) in Hlf.
  destruct (cleaned field) as [|c s1]; [discriminate|].
  destruct c as [[] [] [] [] [] [] [] []]; try discriminate.
  cbn [FileHandler.SECTION_HEADER_CONSTITUENT].
  destruct (Py.span Py.isdigit s1) as [ds rest] eqn:Es.
  destruct rest as [|c s2]; [discriminate|].
  destruct c as [[] [] [] [] [] [] [] []]; try discriminate.
  destruct (span_append _ _ _ _ Es) as [-> Hds].
  assert (Hs2 : no_lf s2 = true).
  { unfold no_lf in *. simpl in Hlf. rewrite forallb_append in Hlf.
    apply andb_true_iff in Hlf. destruct Hlf as [_ Hlf]. exact Hlf. }
  unfold no_lf in Hs2. rewrite (span_all _ _ Hs2). simpl fst.
  destruct (Py.nonempty ds) eqn:Hne; [|discriminate].
  destruct (Py.nonempty s2) eqn:Hg; [|discriminate].
  simpl. intros H. inversion H; subst.
  exists ds, s2. now repeat split.
Qed.

Lemma map_check_and_clean_names (fields : list string) :
  forall columns,
    FileHandler.map_check_and_clean fields = Some columns ->
    length columns = length fields
    /\ Forall (fun name => Py.nonempty name = true /\ Py.lower name = name)
              columns.
Proof.
  induction fields as [|f fs IH]; intros columns H; simpl in H.
  - inversion H; subst. now split.
  - destruct (FileHandler.check_and_clean f) as [name|] eqn:E; [|discriminate].
    destruct (FileHandler.map_check_and_clean fs) as [names|] eqn:Es; [|discriminate].
    inversion H; subst. destruct (IH names eq_refl) as [Hlen Hall].
    split; [simpl; now rewrite Hlen|].
    constructor; [|exact Hall].
    destruct (check_and_clean_shape _ _ E) as (ds & g & _ & _ & _ & Hg & ->).
    split; [now rewrite lower_nonempty|apply lower_idempotent].
Qed.

(** X7.  A header line that the loop accepts declares at least one
    column: as many as there are tabs in the line, each with a non-empty
    name in lower case. *)
Theorem header_declares_columns (line : string) (columns : list string) :
  FileHandler.SECTION_HEADER_PATTERN line = true ->
  FileHandler.columns_of line = Some columns ->
  columns <> []
  /\ S (length columns) = length (Py.split Py.TAB line)
  /\ Forall (fun name => Py.nonempty name = true /\ Py.lower name = name)
            columns.
Proof.
  intros Hh Hc.
  destruct (header_shape _ Hh) as (code & rest & _ & _ & _ & Hs).
  unfold FileHandler.columns_of in Hc. rewrite Hs in *. simpl in Hc.
  destruct (map_check_and_clean_names _ _ Hc) as [Hlen Hall].
  assert (Hfields : Py.split Py.TAB rest <> []).
  { clear. destruct rest as [|c r]; simpl; [discriminate|].
    destruct (Ascii.eqb c Py.TAB); [discriminate|].
    destruct (Py.split Py.TAB r); discriminate. }
  repeat split.
  - intros ->. simpl in Hlen. destruct (Py.split Py.TAB rest); [congruence|discriminate].
  - simpl. now rewrite Hlen.
  - exact Hall.
Qed.

Lemma header_declares_columns_witness :
  ["id"; "quality"] <> []
  /\ 3 = length (Py.split Py.TAB (tsv ["# QUAL"; "[2]id"; "[3]Quality"]))
  /\ Forall (fun name => Py.nonempty name = true /\ Py.lower name = name)
            ["id"; "quality"].
Proof.
  apply (header_declares_columns (tsv ["# QUAL"; "[2]id"; "[3]Quality"])).
  - reflexivity.
  - reflexivity.
Defined.

(** X8.  [check_and_clean] gives a name only for a field that, once
    stripped and freed of line feeds, is an opening bracket, one or more
    digits, a closing bracket and a non-empty rest; the name is that
    rest in lower case.  Every other field makes the program exit. *)
Theorem cleaned_name_follows_bracket_index (field name : string) :
  FileHandler.check_and_clean field = Some name ->
  exists ds g,
    Py.remove_char Py.LF (Py.strip field) = String "[" (ds ++ String "]" g)
    /\ Py.nonempty ds = true
    /\ Py.forallb Py.isdigit ds = true
    /\ Py.nonempty g = true
    /\ name = Py.lower g.
Proof. apply check_and_clean_shape. Qed.

Lemma cleaned_name_follows_bracket_index_witness :
  exists ds g,
    Py.remove_char Py.LF (Py.strip (tsv [" [12]Number of SNPs "]))
    = String "[" (ds ++ String "]" g)
    /\ Py.nonempty ds = true
    /\ Py.forallb Py.isdigit ds = true
    /\ Py.nonempty g = true
    /\ "number of snps" = Py.lower g.
Proof.
  apply (cleaned_name_follows_bracket_index (tsv [" [12]Number of SNPs "])).
  reflexivity.
Defined.

Lemma rstrip_spaces (ws : string) :
  Py.forallb Py.isspace ws = true -> Py.rstrip ws = EmptyString.
Proof.
  induction ws as [|c ws IH]; simpl; [reflexivity|].
  intros H. apply andb_true_iff in H. destruct H as [Hc Hws].
  now rewrite IH, Hc.
Qed.

Lemma rstrip_append_spaces (s ws : string) :
  Py.forallb Py.isspace ws = true ->
  Py.rstrip (s ++ ws) = Py.rstrip s.
Proof.
  intros Hws. induction s as [|c s IH]; simpl.
  - now apply rstrip_spaces.
  - now rewrite IH.
Qed.

Lemma rstrip_append_fixed (a b : string) :
  Py.nonempty b = true -> Py.rstrip b = b ->
  Py.rstrip (a ++ b) = (a ++ b)%string.
Proof.
  intros Hne Hb. induction a as [|c a IH]; simpl; [exact Hb|].
  rewrite IH. destruct (a ++ b)%string eqn:E; [|reflexivity].
  destruct a; simpl in E; [subst b|]; discriminate.
Qed.

Lemma digit_is_no_lf (c : ascii) :
  Py.isdigit c = true -> negb (Ascii.eqb c Py.LF) = true.
Proof.
  intros H. destruct (Ascii.eqb c Py.LF) eqn:E; [|reflexivity].
  apply Ascii.eqb_eq in E. subst c. discriminate H.
Qed.

(** X9.  A field made of a bracketed run of digits and a name is
    accepted, whatever white space (the line terminator of the last
    field included) follows it: the column is the name in lower case.
    The name must be non-empty, free of line feeds and must not end in
    white space. *)
Theorem bracket_index_field_is_accepted (ds name ws : string) :
  Py.nonempty ds = true ->
  Py.forallb Py.isdigit ds = true ->
  Py.nonempty name = true ->
  no_lf name = true ->
  Py.rstrip name = name ->
  Py.forallb Py.isspace ws = true ->
  FileHandler.check_and_clean (String "[" (ds ++ String "]" (name ++ ws)))
  = Some (Py.lower name).
Proof.
  intros Hds Hdig Hne Hlf Hfix Hws.
  assert (Hstrip : Py.strip (String "[" (ds ++ String "]" (name ++ ws)))
                   = String "[" (ds ++ String "]" name)).
  { unfold Py.strip. cbn [Py.lstrip]. change (Py.isspace "[") with false.
    cbv iota.
    change (String "[" (ds ++ String "]" (name ++ ws)))
      with ((String "[" EmptyString) ++ (ds ++ String "]" (name ++ ws)))%string.
    replace (String "[" "" ++ ds ++ String "]" (name ++ ws))%string
      with ((String "[" (ds ++ String "]" EmptyString) ++ name) ++ ws)%string.
    - rewrite rstrip_append_spaces by exact Hws.
      rewrite rstrip_append_fixed by assumption.
      simpl. now rewrite append_assoc.
    - simpl. rewrite !append_assoc. reflexivity. }
  unfold FileHandler.check_and_clean. rewrite Hstrip.
  rewrite remove_char_no_lf.
  - cbn [FileHandler.SECTION_HEADER_CONSTITUENT].
    rewrite span_stops by (exact Hdig || reflexivity).
    unfold no_lf in Hlf. rewrite (span_all _ _ Hlf). simpl fst.
    now rewrite Hds, Hne.
  - unfold no_lf. simpl. rewrite forallb_append. simpl.
    unfold no_lf in Hlf. rewrite Hlf, andb_true_r.
    apply (forallb_weaken Py.isdigit); [apply digit_is_no_lf|exact Hdig].
Qed.

Lemma bracket_index_field_is_accepted_witness :
  FileHandler.check_and_clean
    (String "[" ("12" ++ String "]" ("Number of SNPs" ++ tsv [" "])))
  = Some "number of snps".
Proof.
  apply (bracket_index_field_is_accepted "12" "Number of SNPs" (tsv [" "]));
    reflexivity.
Defined.

(** ** What the object returned holds *)

Lemma header_has_columns (line : string) (columns : list string) :
  FileHandler.SECTION_HEADER_PATTERN line = true ->
  FileHandler.columns_of line = Some columns ->
  columns <> [].
Proof.
  intros Hh Hc.
  destruct (header_shape _ Hh) as (code & rest & _ & _ & _ & Hs).
  unfold FileHandler.columns_of in Hc. rewrite Hs in Hc. simpl in Hc.
  destruct (map_check_and_clean_names _ _ Hc) as [Hlen _].
  intros ->. simpl in Hlen.
  destruct rest as [|c r]; simpl in Hlen; [discriminate|].
  destruct (Ascii.eqb c Py.TAB); [discriminate|].
  destruct (Py.split Py.TAB r); discriminate.
Qed.

(** X10.  In every section of the object [parse] returns, the title is
    the key it is stored under, the columns are those of the header line
    that opens its raw text, and the rows of the table are, one for one
    and in order, the rows built from the raw text lines behind the
    header: row [i] of the table comes from line [i + 1] of the text. *)
Theorem table_rows_follow_the_raw_text
        (actions : list string) (file : list string)
        (st : FileHandler.state) (c : string) (sec : VchkSection.t) :
  FileHandler.parse actions file = FileHandler.Returned st ->
  StatsFileObject.get_section (FileHandler.stats_file_object st) c = Some sec ->
  VchkSection._title sec = c
  /\ FileHandler.columns_of (hd EmptyString (VchkSection.get_text sec))
     = Some (VchkSection._columns sec)
  /\ VchkSection._columns sec <> []
  /\ VchkSection._rows sec = map row_of (tl (VchkSection.get_text sec))
  /\ S (length (VchkSection._rows sec)) = length (VchkSection.get_text sec).
Proof.
  intros Hrun Hget.
  destruct (registered_origin _ _ _ _ _ Hrun Hget)
    as (pre & header & columns & body & post
        & Hfile & Hh & Ht & Hc & Hw & Hbody & Hend & ->).
  unfold VchkSection.get_text. simpl. repeat split; try assumption.
  - now apply (header_has_columns header).
  - now rewrite length_map.
Qed.

Lemma table_rows_follow_the_raw_text_witness :
  VchkSection._title (section_of dp_header ["id"; "bin"; "count"] [dp_row]) = "dp"
  /\ FileHandler.columns_of
       (hd EmptyString
           (VchkSection.get_text (section_of dp_header ["id"; "bin"; "count"] [dp_row])))
     = Some ["id"; "bin"; "count"]
  /\ ["id"; "bin"; "count"] <> []
  /\ [[PyInt 0; PyInt 1; PyInt 5]] = map row_of [dp_row]
  /\ 2 = length [dp_header; dp_row].
Proof.
  apply (table_rows_follow_the_raw_text
           ["dp"] commented_file
           (final_state (FileHandler.parse ["dp"] commented_file)) "dp"
           (section_of dp_header ["id"; "bin"; "count"] [dp_row])).
  - vm_compute. reflexivity.
  - vm_compute. reflexivity.
Defined.

(** X11.  The header of a wanted section that is followed at once by a
    boundary line or by the end of input is registered with a table
    without rows: a section with no data is no error. *)
Theorem section_without_rows_is_registered
        (st : FileHandler.state) (header : string) (columns : list string)
        (rest : list string) :
  FileHandler.SECTION_HEADER_PATTERN header = true ->
  FileHandler.columns_of header = Some columns ->
  wanted st (FileHandler.title_of header) = true ->
  at_section_end rest = true ->
  FileHandler.scan (header :: rest) st
  = FileHandler.scan (tl rest)
      (FileHandler.registered st (FileHandler.title_of header)
                              (section_of header columns []))
  /\ VchkSection.get_text (section_of header columns []) = [header]
  /\ VchkSection._data_frame (section_of header columns [])
     = Some {| VchkSection.columns := columns; VchkSection.data := [] |}.
Proof.
  intros Hh Hc Hw Hend. split; [|now split].
  now apply (scan_registers st header columns [] rest).
Qed.

Lemma section_without_rows_is_registered_witness :
  FileHandler.scan [dp_header; psc_header; psc_row]
    {| FileHandler.stats_file_object := StatsFileObject.init;
       FileHandler._actions := ["dp"];
       FileHandler.stderr := [] |}
  = FileHandler.scan [psc_row]
      (FileHandler.registered
         {| FileHandler.stats_file_object := StatsFileObject.init;
            FileHandler._actions := ["dp"];
            FileHandler.stderr := [] |}
         "dp" (section_of dp_header ["id"; "bin"; "count"] []))
  /\ VchkSection.get_text (section_of dp_header ["id"; "bin"; "count"] [])
     = [dp_header]
  /\ VchkSection._data_frame (section_of dp_header ["id"; "bin"; "count"] [])
     = Some {| VchkSection.columns := ["id"; "bin"; "count"];
               VchkSection.data := [] |}.
Proof.
  apply (section_without_rows_is_registered
           {| FileHandler.stats_file_object := StatsFileObject.init;
              FileHandler._actions := ["dp"];
              FileHandler.stderr := [] |}
           dp_header ["id"; "bin"; "count"] [psc_header; psc_row]);
    reflexivity.
Defined.

(** ** Lines that are no data *)

Lemma list_remove_Some_In (x : string) (l l' : list string) :
  Py.list_remove x l = Some l' -> In x l.
Proof.
  revert l'. induction l as [|y l IH]; intros l' H; simpl in H; [discriminate|].
  destruct (String.eqb y x) eqn:E.
  - apply String.eqb_eq in E. now left.
  - destruct (Py.list_remove x l) as [l0|]; [|discriminate].
    right. now apply (IH l0).
Qed.

Lemma rstrip_keeps_text (c : ascii) (r : string) :
  Py.isspace c = false -> Py.nonempty (Py.rstrip (String c r)) = true.
Proof. intros Hc. simpl. destruct (Py.rstrip r); [now rewrite Hc|reflexivity]. Qed.

Lemma blank_is_no_boundary (line : string) :
  blank line = true -> is_boundary line = false.
Proof.
  intros Hb. destruct (is_boundary line) eqn:E; [|reflexivity].
  destruct line as [|c r]; [discriminate|].
  destruct c as [[] [] [] [] [] [] [] []]; try discriminate E.
  unfold blank, Py.strip in Hb. cbn [Py.lstrip] in Hb.
  change (Py.isspace "#") with false in Hb. cbv iota in Hb.
  rewrite rstrip_keeps_text in Hb by reflexivity. discriminate.
Qed.

Lemma blank_does_not_fit (columns : list string) (line : string) :
  columns <> [] -> blank line = true -> fits columns line = false.
Proof.
  intros Hne Hb. unfold blank in Hb. unfold fits, fields_of, cleaned.
  destruct (Py.strip line); [|discriminate]. simpl.
  now destruct columns.
Qed.

(** X12.  An empty or white-space-only line among the rows of a
    requested section is a row of the wrong shape: the section is given
    up (its code leaves the actions, the diagnostic is written, nothing
    is registered) and the scan goes on at the line behind the blank
    one. *)
Theorem blank_line_gives_up_the_section
        (st : FileHandler.state) (header : string) (columns : list string)
        (body : list string) (line : string) (rest actions' : list string) :
  FileHandler.SECTION_HEADER_PATTERN header = true ->
  FileHandler.columns_of header = Some columns ->
  Forall (body_line columns) body ->
  blank line = true ->
  Py.list_remove (FileHandler.title_of header) (FileHandler._actions st)
  = Some actions' ->
  FileHandler.scan (header :: body ++ line :: rest) st
  = FileHandler.scan rest
      (FileHandler.reported
         (FileHandler.with_actions st actions')
         ("Could not parse section "
            ++ FileHandler.title_of header ++ " properly")).
Proof.
  intros Hh Hc Hbody Hb Hrm.
  assert (Hw : wanted st (FileHandler.title_of header) = true).
  { unfold wanted. apply orb_true_iff. left. apply contains_In.
    eapply list_remove_Some_In; eauto. }
  rewrite scan_cons, (loop_body_wanted _ _ _ columns) by assumption.
  rewrite parse_raises_at_misfit; simpl; try assumption.
  - now rewrite Hrm.
  - now apply blank_is_no_boundary.
  - apply blank_does_not_fit; [|exact Hb]. now apply (header_has_columns header).
Qed.

Lemma blank_line_gives_up_the_section_witness :
  FileHandler.scan [dp_header; dp_row; tsv [""]; dp_row']
    {| FileHandler.stats_file_object := StatsFileObject.init;
       FileHandler._actions := ["dp"; "psc"];
       FileHandler.stderr := [] |}
  = FileHandler.scan [dp_row']
      {| FileHandler.stats_file_object := StatsFileObject.init;
         FileHandler._actions := ["psc"];
         FileHandler.stderr := ["Error: Could not parse section dp properly"] |}.
Proof.
  apply (blank_line_gives_up_the_section
           {| FileHandler.stats_file_object := StatsFileObject.init;
              FileHandler._actions := ["dp"; "psc"];
              FileHandler.stderr := [] |}
           dp_header ["id"; "bin"; "count"] [dp_row] (tsv [""]) [dp_row'] ["psc"]).
  - reflexivity.
  - reflexivity.
  - repeat constructor.
  - reflexivity.
  - reflexivity.
Defined.

(** X13.  Lines before the first header line do not matter: with any
    lines that are no headers put in front, [parse] ends the same way;
    and a file without any header line, the empty file included, gives
    an object without sections, the actions as they were and nothing on
    the error channel. *)
Theorem leading_lines_are_ignored
        (actions : list string) (pre file : list string) :
  Forall (fun l => FileHandler.SECTION_HEADER_PATTERN l = false) pre ->
  FileHandler.parse actions (pre ++ file) = FileHandler.parse actions file
  /\ FileHandler.parse actions pre
     = FileHandler.Returned
         {| FileHandler.stats_file_object := StatsFileObject.init;
            FileHandler._actions := actions;
            FileHandler.stderr := [] |}.
Proof.
  intros Hpre. unfold FileHandler.parse. split.
  - now apply scan_skips_lines.
  - rewrite <- (app_nil_r pre). now rewrite scan_skips_lines.
Qed.

Lemma leading_lines_are_ignored_witness :
  FileHandler.parse ["dp"]
    ([tsv ["# This file was produced by bcftools stats"]; tsv [""]] ++ commented_file)
  = FileHandler.parse ["dp"] commented_file
  /\ FileHandler.parse ["dp"]
       [tsv ["# This file was produced by bcftools stats"]; tsv [""]]
     = FileHandler.Returned
         {| FileHandler.stats_file_object := StatsFileObject.init;
            FileHandler._actions := ["dp"];
            FileHandler.stderr := [] |}.
Proof.
  apply (leading_lines_are_ignored
           ["dp"] [tsv ["# This file was produced by bcftools stats"]; tsv [""]]
           commented_file).
  repeat constructor.
Defined.

(** ** The actions and the error channel after [parse] *)

Lemma list_remove_length (x : string) (l l' : list string) :
  Py.list_remove x l = Some l' -> length l = S (length l').
Proof.
  revert l'. induction l as [|y l IH]; intros l' H; simpl in H; [discriminate|].
  destruct (String.eqb y x); [now inversion H|].
  destruct (Py.list_remove x l) as [l0|]; [|discriminate].
  inversion H; subst. simpl. now rewrite (IH l0).
Qed.

Lemma list_remove_keeps (x y : string) (l l' : list string) :
  Py.list_remove x l = Some l' -> y <> x -> In y l -> In y l'.
Proof.
  revert l'. induction l as [|z l IH]; intros l' H Hne Hin; simpl in H;
    [discriminate|].
  destruct (String.eqb z x) eqn:E.
  - apply String.eqb_eq in E. subst z. inversion H; subst.
    destruct Hin as [->|Hin]; [contradiction|exact Hin].
  - destruct (Py.list_remove x l) as [l0|]; [|discriminate].
    inversion H; subst. destruct Hin as [->|Hin]; [now left|].
    right. now apply (IH l0).
Qed.

Lemma list_remove_NoDup (x : string) (l l' : list string) :
  NoDup l -> Py.list_remove x l = Some l' -> NoDup l' /\ ~ In x l'.
Proof.
  revert l'. induction l as [|z l IH]; intros l' Hnd H; simpl in H;
    [discriminate|].
  inversion Hnd as [|? ? Hz Hl]; subst.
  destruct (String.eqb z x) eqn:E.
  - apply String.eqb_eq in E. subst z. inversion H; subst. now split.
  - destruct (Py.list_remove x l) as [l0|] eqn:Hr; [|discriminate].
    inversion H; subst. destruct (IH l0 Hl eq_refl) as [Hnd0 Hx]. split.
    + constructor; [|exact Hnd0]. intros Hin. apply Hz.
      eapply list_remove_incl; eauto.
    + intros [->|Hin]; [now rewrite String.eqb_refl in E|contradiction].
Qed.

(** The actions only lose codes, one for each diagnostic written. *)
Lemma parse_accounts (actions : list string) (file : list string)
      (st : FileHandler.state) :
  FileHandler.parse actions file = FileHandler.Returned st ->
  incl (FileHandler._actions st) actions
  /\ length (FileHandler._actions st) + length (FileHandler.stderr st)
     = length actions
  /\ Forall (fun m => exists c, In c actions /\ m = diagnostic c)
            (FileHandler.stderr st).
Proof.
  intros Hrun.
  apply (scan_invariant
           (fun _ s =>
              incl (FileHandler._actions s) actions
              /\ length (FileHandler._actions s) + length (FileHandler.stderr s)
                 = length actions
              /\ Forall (fun m => exists c, In c actions /\ m = diagnostic c)
                        (FileHandler.stderr s)))
    with (stats_file := file) (3 := Hrun).
  - clear. intros line rest s rest' s' [Hincl [Hlen Hall]] Hturn.
    destruct Hturn as [_|columns body rest' Hh Hc Hw Hbody Hr
                      |columns body bad rest' actions' Hh Hc Hw Hbody Hnb Hf Hr Hrm];
      try (now repeat split).
    simpl. repeat split.
    + eapply incl_tran; [eapply list_remove_incl; eauto|exact Hincl].
    + unfold error. rewrite length_app. simpl.
      apply list_remove_length in Hrm. lia.
    + unfold error. apply Forall_app. split; [exact Hall|].
      constructor; [|constructor].
      exists (FileHandler.title_of line). split; [|reflexivity].
      apply Hincl. eapply list_remove_Some_In; eauto.
  - simpl. repeat split; [apply incl_refl|lia|constructor].
Qed.

(** X14.  When [parse] returns, the actions left are among those given,
    every line on the error channel is the diagnostic of a code that was
    given, and there is exactly one diagnostic for each code that left
    the actions. *)
Theorem one_diagnostic_for_each_action_lost
        (actions : list string) (file : list string)
        (st : FileHandler.state) :
  FileHandler.parse actions file = FileHandler.Returned st ->
  incl (FileHandler._actions st) actions
  /\ length (FileHandler._actions st) + length (FileHandler.stderr st)
     = length actions
  /\ Forall (fun m => exists c, In c actions /\ m = diagnostic c)
            (FileHandler.stderr st).
Proof. apply parse_accounts. Qed.

Lemma one_diagnostic_for_each_action_lost_witness :
  incl ["dp"] ["sn"; "dp"]
  /\ length ["dp"] + length ["Error: Could not parse section sn properly"]
     = length ["sn"; "dp"]
  /\ Forall (fun m => exists c, In c ["sn"; "dp"] /\ m = diagnostic c)
            ["Error: Could not parse section sn properly"].
Proof.
  apply (one_diagnostic_for_each_action_lost
           ["sn"; "dp"] short_summary_file
           (final_state (FileHandler.parse ["sn"; "dp"] short_summary_file))).
  vm_compute. reflexivity.
Defined.

(** X15.  A requested section that the file does not have is no error:
    when no line of the file is a header with the code [c], the object
    returned has no entry for [c], and [c] is among the actions left
    exactly when it was among those given. *)
Theorem absent_section_stays_requested
        (actions : list string) (file : list string)
        (st : FileHandler.state) (c : string) :
  Forall (fun l => heads c l = false) file ->
  FileHandler.parse actions file = FileHandler.Returned st ->
  StatsFileObject.get_section (FileHandler.stats_file_object st) c = None
  /\ (In c (FileHandler._actions st) <-> In c actions).
Proof.
  intros Hall Hrun. split; [|split].
  - unfold FileHandler.parse in Hrun.
    destruct (scan_frames_code c _ _ _ Hall Hrun) as [Hget _].
    rewrite Hget. reflexivity.
  - apply (parse_accounts _ _ _ Hrun).
  - intros Hin.
    apply (scan_invariant
             (fun rem s =>
                Forall (fun l => heads c l = false) rem
                /\ In c (FileHandler._actions s)))
      with (stats_file := file) (3 := Hrun); [|now split].
    clear. intros line rest s rest' s' [Hall Hin] Hturn.
    inversion Hall as [|? ? Hline Hrest]; subst.
    destruct Hturn as [_|columns body rest' Hh Hc Hw Hbody Hr
                      |columns body bad rest' actions' Hh Hc Hw Hbody Hnb Hf Hr Hrm].
    + now split.
    + split; [|exact Hin].
      destruct Hr as [[_ ->]|[b [_ ->]]]; [constructor|].
      apply Forall_app in Hrest. destruct Hrest as [_ Hrest]. now inversion Hrest.
    + split.
      * subst rest. apply Forall_app in Hrest. destruct Hrest as [_ Hrest].
        now inversion Hrest.
      * simpl. eapply list_remove_keeps; eauto.
        unfold heads in Hline. rewrite Hh in Hline. simpl in Hline.
        intros ->. now rewrite String.eqb_refl in Hline.
Qed.

Lemma absent_section_stays_requested_witness :
  StatsFileObject.get_section
    (FileHandler.stats_file_object
       (final_state (FileHandler.parse ["dp"; "hwe"] commented_file))) "hwe"
  = None
  /\ (In "hwe" (FileHandler._actions
                  (final_state (FileHandler.parse ["dp"; "hwe"] commented_file)))
      <-> In "hwe" ["dp"; "hwe"]).
Proof.
  apply (absent_section_stays_requested ["dp"; "hwe"] commented_file).
  - repeat constructor.
  - vm_compute. reflexivity.
Defined.

(** X16.  When the actions given hold no code twice, as those of the
    argument parser do, the actions left hold no code twice either, and
    every code whose diagnostic is on the error channel is gone from
    them: no later section with that code is parsed and no caller that
    walks the actions meets a section that was given up. *)
Theorem given_up_codes_leave_the_actions
        (actions : list string) (file : list string)
        (st : FileHandler.state) :
  NoDup actions ->
  FileHandler.parse actions file = FileHandler.Returned st ->
  NoDup (FileHandler._actions st)
  /\ Forall (fun m => exists c,
                 m = diagnostic c /\ In c actions
                 /\ ~ In c (FileHandler._actions st))
            (FileHandler.stderr st).
Proof.
  intros Hnd Hrun.
  assert (H : incl (FileHandler._actions st) actions
              /\ NoDup (FileHandler._actions st)
              /\ Forall (fun m => exists c,
                             m = diagnostic c /\ In c actions
                             /\ ~ In c (FileHandler._actions st))
                        (FileHandler.stderr st)).
  { apply (scan_invariant
             (fun _ s =>
                incl (FileHandler._actions s) actions
                /\ NoDup (FileHandler._actions s)
                /\ Forall (fun m => exists c,
                               m = diagnostic c /\ In c actions
                               /\ ~ In c (FileHandler._actions s))
                          (FileHandler.stderr s)))
      with (stats_file := file) (3 := Hrun).
    - clear. intros line rest s rest' s' [Hincl [Hnd Hall]] Hturn.
      destruct Hturn as [_|columns body rest' Hh Hc Hw Hbody Hr
                        |columns body bad rest' actions' Hh Hc Hw Hbody Hnb Hf Hr Hrm];
        try (now repeat split).
      destruct (list_remove_NoDup _ _ _ Hnd Hrm) as [Hnd' Hgone].
      pose proof (list_remove_incl _ _ _ Hrm) as Hsub.
      simpl. repeat split.
      + eapply incl_tran; eauto.
      + exact Hnd'.
      + unfold error. apply Forall_app. split.
        * eapply Forall_impl; [|exact Hall]. simpl.
          intros m [c [Hm [Hin Hnot]]]. exists c. repeat split; auto.
        * constructor; [|constructor].
          exists (FileHandler.title_of line). repeat split; [|exact Hgone].
          apply Hincl. eapply list_remove_Some_In; eauto.
    - simpl. repeat split; [apply incl_refl|exact Hnd|constructor]. }
  destruct H as [_ H]. exact H.
Qed.

Lemma given_up_codes_leave_the_actions_witness :
  NoDup ["dp"]
  /\ Forall (fun m => exists c,
                 m = diagnostic c /\ In c ["sn"; "dp"] /\ ~ In c ["dp"])
            ["Error: Could not parse section sn properly"].
Proof.
  apply (given_up_codes_leave_the_actions
           ["sn"; "dp"] short_summary_file
           (final_state (FileHandler.parse ["sn"; "dp"] short_summary_file))).
  - repeat constructor; simpl; intuition discriminate.
  - vm_compute. reflexivity.
Defined.

(** ** Sections that are not wanted, and sections given up *)

(** X17 ([unrequested_absent]) on a file: [psc] is neither requested nor
    the summary code. *)
Lemma unrequested_absent_witness :
  StatsFileObject.get_section
    (FileHandler.stats_file_object
       (final_state (FileHandler.parse ["dp"] commented_file))) "psc"
  = None.
Proof.
  apply (unrequested_absent ["dp"] commented_file).
  - vm_compute. reflexivity.
  - reflexivity.
  - discriminate.
Defined.

(** X18 ([scan_skips_unwanted]) on the section PSC of the same file. *)
Lemma scan_skips_unwanted_witness :
  FileHandler.scan
    (psc_header :: [psc_row] ++ [tsv ["# DP, Depth distribution:"]; dp_header; dp_row])
    {| FileHandler.stats_file_object := StatsFileObject.init;
       FileHandler._actions := ["dp"];
       FileHandler.stderr := [] |}
  = FileHandler.scan
      [tsv ["# DP, Depth distribution:"]; dp_header; dp_row]
      {| FileHandler.stats_file_object := StatsFileObject.init;
         FileHandler._actions := ["dp"];
         FileHandler.stderr := [] |}.
Proof.
  apply (scan_skips_unwanted
           {| FileHandler.stats_file_object := StatsFileObject.init;
              FileHandler._actions := ["dp"];
              FileHandler.stderr := [] |}
           psc_header ["id"; "sample"]).
  - reflexivity.
  - reflexivity.
  - reflexivity.
  - repeat constructor.
Defined.

(** X19 ([scan_recovers]) on a DP section whose second row lacks a
    value. *)
Lemma scan_recovers_witness :
  FileHandler.scan
    (dp_header :: [dp_row] ++ tsv ["DP"; "0"; "2"] :: [psc_header; psc_row])
    {| FileHandler.stats_file_object := StatsFileObject.init;
       FileHandler._actions := ["dp"; "psc"];
       FileHandler.stderr := [] |}
  = FileHandler.scan
      [psc_header; psc_row]
      {| FileHandler.stats_file_object := StatsFileObject.init;
         FileHandler._actions := ["psc"];
         FileHandler.stderr := ["Error: Could not parse section dp properly"] |}.
Proof.
  apply (scan_recovers
           {| FileHandler.stats_file_object := StatsFileObject.init;
              FileHandler._actions := ["dp"; "psc"];
              FileHandler.stderr := [] |}
           dp_header ["id"; "bin"; "count"] [dp_row] (tsv ["DP"; "0"; "2"])
           [psc_header; psc_row] ["psc"]).
  - reflexivity.
  - reflexivity.
  - reflexivity.
  - repeat constructor.
  - reflexivity.
  - reflexivity.
  - reflexivity.
Defined.

(** * Literal coercion *)


























